(** * ncr-bind-forms: validators, validator composition and the
      view/model binding pipelines of [directives/shared.ts].

    The development follows the TypeScript sources:
    - [validators.ts]  : [isEmptyInputValue], the built-in [BindValidators],
      [compose], [composeAsync], [_mergeErrors];
    - [directives/normalize_validator.ts] : [normalizeValidator];
    - [directives/shared.ts] : [setUpControl], the view-change, blur and
      model-change pipelines, [updateControl], [syncPendingControls],
      [selectValueAccessor], [_throwError];
    - [shared.ts] : [toObservable]. *)

From Stdlib Require Import String Ascii List Bool ZArith Uint63 PrimFloat
  FloatAxioms.
From stdpp Require Import gmap strings list fin_maps.

Local Open Scope string_scope.
Set Warnings "-register-all".

(** ** JavaScript values *)

(** A JavaScript number is an IEEE 754 binary64 value. *)
Abbreviation number := PrimFloat.float.

(** The values.  A string is kept as the sequence of its UTF-16 code
    units, one character for each: this covers the strings whose code
    units are below 256, among them the ASCII strings of the sources and
    of their documented examples. *)
Inductive JsValue : Type :=
| VUndefined
| VNull
| VBool (b : bool)
| VNum (n : number)
| VStr (s : string)
| VArr (items : list JsValue)
| VObj (props : list (string * JsValue)).

(** Own-property lookup in an object literal (first binding wins: the
    literals built here never repeat a key). *)
Fixpoint get_prop (k : string) (props : list (string * JsValue)) : JsValue :=
  match props with
  | [] => VUndefined
  | (k', v) :: rest => if String.eqb k k' then v else get_prop k rest
  end.

(** [ToBoolean]: the falsy values are undefined, null, false, +0, -0, NaN
    and the empty string. *)
Definition truthy (v : JsValue) : bool :=
  match v with
  | VUndefined | VNull => false
  | VBool b => b
  | VNum n => negb (PrimFloat.eqb n 0%float || PrimFloat.is_nan n)
  | VStr s => negb (String.eqb s "")
  | VArr _ | VObj _ => true
  end.

(** [v == null] *)
Definition is_nullish (v : JsValue) : bool :=
  match v with
  | VUndefined | VNull => true
  | _ => false
  end.

(** Number of a native length (string or array). *)
Definition num_of_nat (n : nat) : number :=
  PrimFloat.of_uint63 (Uint63.of_Z (Z.of_nat n)).

(** [v.length] for a non-nullish [v]; for a string, the number of its
    code units. *)
Definition get_length (v : JsValue) : JsValue :=
  match v with
  | VStr s => VNum (num_of_nat (String.length s))
  | VArr items => VNum (num_of_nat (List.length items))
  | VObj props => get_prop "length" props
  | _ => VUndefined
  end.

(** [v.length === 0] for a non-nullish [v]: strings and arrays have a
    native length, an object may carry a [length] property, numbers and
    booleans have none. *)
Definition length_is_zero (v : JsValue) : bool :=
  match v with
  | VStr s => Nat.eqb (String.length s) 0
  | VArr items => Nat.eqb (List.length items) 0
  | VObj props =>
      match get_prop "length" props with
      | VNum n => PrimFloat.eqb n 0%float
      | _ => false
      end
  | _ => false
  end.

(** [v === true] *)
Definition is_true (v : JsValue) : bool :=
  match v with
  | VBool true => true
  | _ => false
  end.

(** ** Controls as validators see them *)

Record AbstractBindControl : Type := mkControl {
  value : JsValue;
  dirty : bool;
  touched : bool;
  disabled : bool
}.

(** [ValidationBindErrors]: an object used as a map from error keys to
    details. *)
Abbreviation ValidationBindErrors := (gmap string JsValue).

(** A validator is called with the control object, which it may read and,
    like any JavaScript function, write: it returns the control as it left
    it together with its result ([None] is [null]). *)
Definition BindValidatorFn : Type :=
  AbstractBindControl -> AbstractBindControl * option ValidationBindErrors.

(** A validator that only reads the control. *)
Definition reads (f : AbstractBindControl -> option ValidationBindErrors)
  : BindValidatorFn := fun c => (c, f c).

(** validators.ts: [isEmptyInputValue] *)
Definition isEmptyInputValue (v : JsValue) : bool :=
  is_nullish v || length_is_zero v.

(** validators.ts: [isPresent] *)
Definition isPresent {A : Type} (o : option A) : bool :=
  match o with
  | Some _ => true
  | None => false
  end.

(** The present elements of an array, in order:
    [validators.filter(isPresent)]. *)
Definition present {A : Type} (l : list (option A)) : list A :=
  omap id l.

(** validators.ts: [_mergeErrors].  The spread [{...res, ...errors}] keeps
    the keys of [res] and lets those of [errors] override. *)
Definition _mergeErrors (arrayOfErrors : list (option ValidationBindErrors))
  : option ValidationBindErrors :=
  let res :=
    fold_left
      (fun (res : gmap string JsValue) errors =>
         match errors with
         | Some e => e ∪ res
         | None => res
         end)
      arrayOfErrors ∅ in
  if decide (res = ∅) then None else Some res.

(** validators.ts: [_executeValidators], [validators.map((v) => v(control))]:
    the validators run in order on the one control object. *)
Fixpoint _executeValidators (control : AbstractBindControl)
    (validators : list BindValidatorFn)
  : AbstractBindControl * list (option ValidationBindErrors) :=
  match validators with
  | [] => (control, [])
  | v :: rest =>
      let '(control1, r) := v control in
      let '(control2, rs) := _executeValidators control1 rest in
      (control2, r :: rs)
  end.

(** ** Exceptions *)

(** A call either returns or throws an [Error] with a message. *)
Inductive Result (A : Type) : Type :=
| Ok (a : A)
| Throw (message : string).
Arguments Ok {A} a.
Arguments Throw {A} message.

Definition Result_bind {A B : Type} (r : Result A) (k : A -> Result B)
  : Result B :=
  match r with
  | Ok a => k a
  | Throw message => Throw message
  end.

Notation "'let*' x ':=' r 'in' k" :=
  (Result_bind r (fun x => k))
  (at level 10, x pattern, r at level 100, k at level 200).

(** [array.map(f)] when [f] may throw: the first exception ends the
    loop. *)
Fixpoint map_throwing {A B : Type} (f : A -> Result B) (l : list A)
  : Result (list B) :=
  match l with
  | [] => Ok []
  | a :: rest =>
      let* b := f a in
      let* bs := map_throwing f rest in
      Ok (b :: bs)
  end.

(** ** Asynchronous validators *)

(** The rxjs operators belong to a dependency, not to this repository.  An
    observable is taken as the finite sequence of values it emits before it
    completes; a promise as the value it resolves to. *)
Definition Observable (A : Type) : Type := list A.

(** rxjs [forkJoin] of an array: once every source has completed it emits
    the array of their last values, provided every source emitted (and
    there is a source); otherwise it completes without a value. *)
Definition forkJoin {A : Type} (sources : list (Observable A))
  : Observable (list A) :=
  match sources with
  | [] => []
  | _ =>
      match mapM (@last A) sources with
      | Some lasts => [lasts]
      | None => []
      end
  end.

(** rxjs [map] operator, through [pipe]. *)
Definition rx_map {A B : Type} (f : A -> B) (source : Observable A)
  : Observable B :=
  List.map f source.

(** What an asynchronous validator hands back: a promise, an observable,
    or something else. *)
Inductive AsyncResult : Type :=
| APromise (resolved : option ValidationBindErrors)
| AObservable (stream : Observable (option ValidationBindErrors))
| ANeither (v : JsValue).

Definition AsyncBindValidatorFn : Type :=
  AbstractBindControl -> Result AsyncResult.

(** shared.ts: [toObservable] *)
Definition toObservable (r : AsyncResult)
  : Result (Observable (option ValidationBindErrors)) :=
  match r with
  | APromise resolved => Ok [resolved]
  | AObservable stream => Ok stream
  | ANeither _ => Throw "Expected validator to return Promise or Observable."
  end.

(** validators.ts: [_executeAsyncValidators] *)
Definition _executeAsyncValidators (control : AbstractBindControl)
    (validators : list AsyncBindValidatorFn) : Result (list AsyncResult) :=
  map_throwing (fun v => v control) validators.

(** ** Regular expressions *)

(** A [RegExp] object is kept as its source text, its flags and its
    [lastIndex], the one property that matching writes; matching itself is
    the host's. *)
Record RegExp : Type := mkRegExp {
  source : string;
  flags : string;
  lastIndex : nat
}.

Definition set_lastIndex (x : nat) (r : RegExp) : RegExp :=
  mkRegExp (source r) (flags r) x.

(** Whether a flag is among the flags of an expression. *)
Fixpoint has_flag (flag : ascii) (flags : string) : bool :=
  match flags with
  | EmptyString => false
  | String ch rest => Ascii.eqb ch flag || has_flag flag rest
  end.

(** An expression with the [g] or the [y] flag starts matching at its
    [lastIndex] and has it written by every match; any other expression
    neither reads nor writes it. *)
Definition keeps_lastIndex (r : RegExp) : bool :=
  has_flag "g" (flags r) || has_flag "y" (flags r).

Section RegExpHost.

(** The host's part.  [valid_pattern str] tells whether [str] is a pattern
    the host compiles.  [regexp_test r v] is what [r.test(v)] returns for
    the expression in the state [r]: whether it finds a match in
    [ToString(v)], from [lastIndex] on under the [g] or [y] flag;
    [regexp_end r v] is the index at which the match found ends. *)
Variable valid_pattern : string -> bool.
Variable regexp_test : RegExp -> JsValue -> bool.
Variable regexp_end : RegExp -> JsValue -> nat.

(** [new RegExp(str)]: a [SyntaxError] is thrown for a string that is not
    a pattern. *)
Definition new_RegExp (str : string) : Result RegExp :=
  if valid_pattern str
  then Ok {| source := str; flags := ""; lastIndex := 0 |}
  else Throw "SyntaxError".

(** [r.test(v)]: the expression as the call leaves it, and the result.
    Under the [g] or [y] flag [lastIndex] becomes the end of the match, or
    [0] when there is none. *)
Definition RegExp_test (r : RegExp) (v : JsValue) : RegExp * bool :=
  let matched := regexp_test r v in
  let r :=
    if keeps_lastIndex r
    then set_lastIndex (if matched then regexp_end r v else 0) r
    else r in
  (r, matched).

End RegExpHost.

(** [regexp.toString()] *)
Definition RegExp_toString (r : RegExp) : string :=
  "/" ++ source r ++ "/" ++ flags r.

(** validators.ts: [EMAIL_REGEXP], a literal without flags. *)
Definition EMAIL_REGEXP : RegExp :=
  mkRegExp
    "^(?=.{1,254}$)(?=.{1,64}@)[a-zA-Z0-9!#$%&'*+/=?^_`{|}~-]+(?:\.[a-zA-Z0-9!#$%&'*+/=?^_`{|}~-]+)*@[a-zA-Z0-9](?:[a-zA-Z0-9-]{0,61}[a-zA-Z0-9])?(?:\.[a-zA-Z0-9](?:[a-zA-Z0-9-]{0,61}[a-zA-Z0-9])?)*$"
    "" 0.

(** [str.charAt(i)]: the one-character string at [i], or the empty string
    out of range. *)
Definition charAt (str : string) (i : nat) : string :=
  match String.get i str with
  | Some ch => String ch EmptyString
  | None => ""
  end.

(** The argument of [BindValidators.pattern]: [string | RegExp], or an
    absent value. *)
Inductive PatternArg : Type :=
| PatNull
| PatUndefined
| PatString (str : string)
| PatRegExp (re : RegExp).

(** [!pattern] *)
Definition pattern_falsy (p : PatternArg) : bool :=
  match p with
  | PatNull | PatUndefined => true
  | PatString str => String.eqb str ""
  | PatRegExp _ => false
  end.

(** What [BindValidators.pattern] returns: [nullValidator] itself, or the
    function that closes over [regex] and [regexStr]; [regex] is the
    expression in its current state. *)
Inductive PatternValidator : Type :=
| pattern_nullValidator
| pattern_closure (regex : RegExp) (regexStr : string).

(** ** The built-in validators *)

Module BindValidators.
Section Host.

(** Functions of the JavaScript host: the global [parseFloat], [ToNumber]
    on strings and objects, and those of regular expressions. *)
Variable parseFloat : JsValue -> number.
Variable host_ToNumber : JsValue -> number.
Variable valid_pattern : string -> bool.
Variable regexp_test : RegExp -> JsValue -> bool.
Variable regexp_end : RegExp -> JsValue -> nat.

(** [ToNumber], as the relational operators apply it to an operand. *)
Definition ToNumber (v : JsValue) : number :=
  match v with
  | VUndefined => PrimFloat.nan
  | VNull => 0%float
  | VBool true => 1%float
  | VBool false => 0%float
  | VNum n => n
  | VStr _ | VArr _ | VObj _ => host_ToNumber v
  end.

(** [control.value ? control.value.length : 0] *)
Definition value_length (v : JsValue) : JsValue :=
  if truthy v then get_length v else VNum 0%float.

Definition min (min : number) : BindValidatorFn :=
  reads (fun control =>
    if isEmptyInputValue (value control) || isEmptyInputValue (VNum min)
    then None
    else
      let v := parseFloat (value control) in
      if negb (PrimFloat.is_nan v) && PrimFloat.ltb v min
      then Some {[ "min" :=
                     VObj [("min", VNum min); ("actual", value control)] ]}
      else None).

Definition max (max : number) : BindValidatorFn :=
  reads (fun control =>
    if isEmptyInputValue (value control) || isEmptyInputValue (VNum max)
    then None
    else
      let v := parseFloat (value control) in
      if negb (PrimFloat.is_nan v) && PrimFloat.ltb max v
      then Some {[ "max" :=
                     VObj [("max", VNum max); ("actual", value control)] ]}
      else None).

Definition required : BindValidatorFn :=
  reads (fun control =>
    if isEmptyInputValue (value control)
    then Some {[ "required" := VBool true ]}
    else None).

Definition requiredTrue : BindValidatorFn :=
  reads (fun control =>
    if is_true (value control)
    then None
    else Some {[ "required" := VBool true ]}).

(** [EMAIL_REGEXP] has no flag: [test] leaves it as it is. *)
Definition email : BindValidatorFn :=
  reads (fun control =>
    if isEmptyInputValue (value control) then None
    else if regexp_test EMAIL_REGEXP (value control) then None
    else Some {[ "email" := VBool true ]}).

Definition minLength (minLength : number) : BindValidatorFn :=
  reads (fun control =>
    if isEmptyInputValue (value control) then None
    else
      let length := value_length (value control) in
      if PrimFloat.ltb (ToNumber length) minLength
      then Some {[ "minlength" :=
                     VObj [("requiredLength", VNum minLength);
                           ("actualLength", length)] ]}
      else None).

Definition maxLength (maxLength : number) : BindValidatorFn :=
  reads (fun control =>
    let length := value_length (value control) in
    if PrimFloat.ltb maxLength (ToNumber length)
    then Some {[ "maxlength" :=
                   VObj [("requiredLength", VNum maxLength);
                         ("actualLength", length)] ]}
    else None).

Definition nullValidator : BindValidatorFn :=
  reads (fun _ => None).

(** The string branch of [pattern]: [regexStr] as the three statements
    build it. *)
Definition pattern_regexStr (pattern : string) : string :=
  let regexStr := "" in
  let regexStr :=
    if negb (String.eqb (charAt pattern 0) "^")
    then regexStr ++ "^" else regexStr in
  let regexStr := regexStr ++ pattern in
  let regexStr :=
    if negb (String.eqb (charAt pattern (String.length pattern - 1)) "$")
    then regexStr ++ "$" else regexStr in
  regexStr.

(** A call of the function [pattern] returns, [regex] and [regexStr]
    being its captured variables: the expression as [test] leaves it, and
    what the function returns. *)
Definition pattern_call (regex : RegExp) (regexStr : string)
    (control : AbstractBindControl)
  : RegExp * (AbstractBindControl * option ValidationBindErrors) :=
  if isEmptyInputValue (value control) then (regex, (control, None))
  else
    let value := value control in
    let '(regex, matched) := RegExp_test regexp_test regexp_end regex value in
    (regex,
     (control,
      if matched then None
      else Some {[ "pattern" :=
                     VObj [("requiredPattern", VStr regexStr);
                           ("actualValue", value)] ]})).

(** That function as a validator, for the expression in the state
    [regex]. *)
Definition pattern_check (regex : RegExp) (regexStr : string)
  : BindValidatorFn :=
  reads (fun control =>
    if isEmptyInputValue (value control) then None
    else
      let value := value control in
      if regexp_test regex value then None
      else Some {[ "pattern" :=
                     VObj [("requiredPattern", VStr regexStr);
                           ("actualValue", value)] ]}).

Definition pattern (pattern : PatternArg) : Result PatternValidator :=
  if pattern_falsy pattern then Ok pattern_nullValidator
  else
    match pattern with
    | PatString str =>
        let regexStr := pattern_regexStr str in
        let* regex := new_RegExp valid_pattern regexStr in
        Ok (pattern_closure regex regexStr)
    | PatRegExp re =>
        Ok (pattern_closure re (RegExp_toString re))
    | PatNull | PatUndefined => Ok pattern_nullValidator
    end.

(** What [pattern] returned, as a validator. *)
Definition pattern_validator (v : PatternValidator) : BindValidatorFn :=
  match v with
  | pattern_nullValidator => nullValidator
  | pattern_closure regex regexStr => pattern_check regex regexStr
  end.

(** [BindValidators.compose].  The argument is [null] ([None]) or an
    array whose elements may be [null] or [undefined]. *)
Definition compose (validators : option (list (option BindValidatorFn)))
  : option BindValidatorFn :=
  match validators with
  | None => None
  | Some vs =>
      let presentValidators := present vs in
      if Nat.eqb (List.length presentValidators) 0 then None
      else Some (fun control =>
                   let '(control', errs) :=
                     _executeValidators control presentValidators in
                   (control', _mergeErrors errs))
  end.

(** [BindValidators.composeAsync] *)
Definition composeAsync
    (validators : option (list (option AsyncBindValidatorFn)))
  : option AsyncBindValidatorFn :=
  match validators with
  | None => None
  | Some vs =>
      let presentValidators := present vs in
      if Nat.eqb (List.length presentValidators) 0 then None
      else Some (fun control =>
                   let* results :=
                     _executeAsyncValidators control presentValidators in
                   let* observables := map_throwing toObservable results in
                   Ok (AObservable
                         (rx_map _mergeErrors (forkJoin observables))))
  end.

End Host.
End BindValidators.

(** ** Normalizing directive validators *)

(** A validator supplied by a directive: a plain function, or an object
    with a [validate] method and possibly [registerOnValidatorChange]. *)
Inductive BindValidator : Type :=
| ValidatorFunction (fn : BindValidatorFn)
| ValidatorObject (validate : BindValidatorFn)
    (registerOnValidatorChange : bool).

Inductive AsyncBindValidator : Type :=
| AsyncValidatorFunction (fn : AsyncBindValidatorFn)
| AsyncValidatorObject (validate : AsyncBindValidatorFn)
    (registerOnValidatorChange : bool).

(** normalize_validator.ts: [normalizeValidator] *)
Definition normalizeValidator (validator : BindValidator) : BindValidatorFn :=
  match validator with
  | ValidatorObject validate _ => fun c => validate c
  | ValidatorFunction fn => fn
  end.

(** normalize_validator.ts: [normalizeAsyncValidator] *)
Definition normalizeAsyncValidator (validator : AsyncBindValidator)
  : AsyncBindValidatorFn :=
  match validator with
  | AsyncValidatorObject validate _ => fun c => validate c
  | AsyncValidatorFunction fn => fn
  end.

(** shared.ts: [composeValidators] *)
Definition composeValidators (validators : option (list BindValidator))
  : option BindValidatorFn :=
  match validators with
  | Some vs =>
      BindValidators.compose (Some (List.map (fun v => Some (normalizeValidator v)) vs))
  | None => None
  end.

(** shared.ts: [composeAsyncValidators] *)
Definition composeAsyncValidators
    (validators : option (list AsyncBindValidator))
  : option AsyncBindValidatorFn :=
  match validators with
  | Some vs =>
      BindValidators.composeAsync
        (Some (List.map (fun v => Some (normalizeAsyncValidator v)) vs))
  | None => None
  end.

(** ** Form controls and directives (directives/shared.ts) *)

(** [updateOn]: ['change' | 'blur' | 'submit'] *)
Inductive BindFormHooks : Type :=
| on_change
| on_blur
| on_submit.

Definition BindFormHooks_eqb (a b : BindFormHooks) : bool :=
  match a, b with
  | on_change, on_change | on_blur, on_blur | on_submit, on_submit => true
  | _, _ => false
  end.

(** A transformer is stored on the control and called through
    [Function.prototype.apply] with an argument list. *)
Definition BindTransformerFn : Type := JsValue -> JsValue.

(** [fn.apply(undefined, args)]: the one parameter takes the first
    argument, or [undefined] when the list is empty. *)
Definition Function_apply (fn : BindTransformerFn) (args : list JsValue)
  : JsValue :=
  fn (nth 0 args VUndefined).

(** The methods of the control that are defined in model.ts.  That file is
    not among the sources: a call is recorded on the control, in order,
    and its effect inside the model is left open. *)
Inductive ControlCall : Type :=
| setValue (v : JsValue) (emitModelToViewChange : bool)
| markAsDirty
| markAsTouched
| registerOnChange
| registerOnDisabledChange.

Record BindFormControl : Type := mkBindFormControl {
  base : AbstractBindControl;
  validator : option BindValidatorFn;
  asyncValidator : option AsyncBindValidatorFn;
  transformer : option BindTransformerFn;
  updateOn : BindFormHooks;
  _pendingValue : JsValue;
  _pendingChange : bool;
  _pendingDirty : bool;
  _pendingTouched : bool;
  calls : list ControlCall
}.

Definition set_validator (x : option BindValidatorFn) (c : BindFormControl)
  : BindFormControl :=
  mkBindFormControl (base c) x (asyncValidator c) (transformer c)
    (updateOn c) (_pendingValue c) (_pendingChange c) (_pendingDirty c)
    (_pendingTouched c) (calls c).

Definition set_asyncValidator (x : option AsyncBindValidatorFn)
    (c : BindFormControl) : BindFormControl :=
  mkBindFormControl (base c) (validator c) x (transformer c)
    (updateOn c) (_pendingValue c) (_pendingChange c) (_pendingDirty c)
    (_pendingTouched c) (calls c).

Definition set_pendingValue (x : JsValue) (c : BindFormControl)
  : BindFormControl :=
  mkBindFormControl (base c) (validator c) (asyncValidator c) (transformer c)
    (updateOn c) x (_pendingChange c) (_pendingDirty c)
    (_pendingTouched c) (calls c).

Definition set_pendingChange (x : bool) (c : BindFormControl)
  : BindFormControl :=
  mkBindFormControl (base c) (validator c) (asyncValidator c) (transformer c)
    (updateOn c) (_pendingValue c) x (_pendingDirty c)
    (_pendingTouched c) (calls c).

Definition set_pendingDirty (x : bool) (c : BindFormControl)
  : BindFormControl :=
  mkBindFormControl (base c) (validator c) (asyncValidator c) (transformer c)
    (updateOn c) (_pendingValue c) (_pendingChange c) x
    (_pendingTouched c) (calls c).

Definition set_pendingTouched (x : bool) (c : BindFormControl)
  : BindFormControl :=
  mkBindFormControl (base c) (validator c) (asyncValidator c) (transformer c)
    (updateOn c) (_pendingValue c) (_pendingChange c) (_pendingDirty c)
    x (calls c).

(** A call of a model.ts method on the control. *)
Definition call (m : ControlCall) (c : BindFormControl) : BindFormControl :=
  mkBindFormControl (base c) (validator c) (asyncValidator c) (transformer c)
    (updateOn c) (_pendingValue c) (_pendingChange c) (_pendingDirty c)
    (_pendingTouched c) (calls c ++ [m]).

(** The classes of value accessor that [selectValueAccessor] tells apart
    by [constructor]; any other class is a custom accessor. *)
Inductive AccessorClass : Type :=
| DefaultBindValueAccessor
| CheckboxControlBindValueAccessor
| RangeBindValueAccessor
| NumberBindValueAccessor
| SelectControlBindValueAccessor
| SelectMultipleControlBindValueAccessor
| RadioControlBindValueAccessor
| CustomClass (name : string).

Definition AccessorClass_eqb (a b : AccessorClass) : bool :=
  match a, b with
  | DefaultBindValueAccessor, DefaultBindValueAccessor
  | CheckboxControlBindValueAccessor, CheckboxControlBindValueAccessor
  | RangeBindValueAccessor, RangeBindValueAccessor
  | NumberBindValueAccessor, NumberBindValueAccessor
  | SelectControlBindValueAccessor, SelectControlBindValueAccessor
  | SelectMultipleControlBindValueAccessor,
    SelectMultipleControlBindValueAccessor
  | RadioControlBindValueAccessor, RadioControlBindValueAccessor => true
  | CustomClass x, CustomClass y => String.eqb x y
  | _, _ => false
  end.

(** The handlers the pipelines install on a value accessor. *)
Inductive ViewHandler : Type :=
| viewChangePipeline
| blurPipeline
| noControlError.

(** The [ControlBindValueAccessor] interface is implemented by classes
    bound to DOM elements: the calls it receives are recorded in order. *)
Inductive AccessorCall : Type :=
| writeValue (v : JsValue)
| acc_registerOnChange (h : ViewHandler)
| acc_registerOnTouched (h : ViewHandler).

Record ControlBindValueAccessor : Type := mkAccessor {
  accessor_class : AccessorClass;
  setDisabledState : bool;
  accessor_calls : list AccessorCall
}.

Definition accessor_call (m : AccessorCall) (a : ControlBindValueAccessor)
  : ControlBindValueAccessor :=
  mkAccessor (accessor_class a) (setDisabledState a) (accessor_calls a ++ [m]).

(** What a directive receives besides its fields: [viewToModelUpdate], and
    the [registerOnValidatorChange] calls on its raw validators (by
    position, synchronous ones first). *)
Inductive DirectiveCall : Type :=
| viewToModelUpdate (v : JsValue)
| registerOnValidatorChange (asynchronous : bool) (index : nat).

(** [NgBindControl]; [control_name] names the control that the [control]
    getter resolves to. *)
Record NgBindControl : Type := mkDir {
  path : list string;
  control_name : string;
  valueAccessor : option ControlBindValueAccessor;
  _rawValidators : list BindValidator;
  _rawAsyncValidators : list AsyncBindValidator;
  directive_calls : list DirectiveCall
}.

Definition set_valueAccessor (x : option ControlBindValueAccessor)
    (d : NgBindControl) : NgBindControl :=
  mkDir (path d) (control_name d) x (_rawValidators d)
    (_rawAsyncValidators d) (directive_calls d).

Definition directive_call (m : DirectiveCall) (d : NgBindControl)
  : NgBindControl :=
  mkDir (path d) (control_name d) (valueAccessor d) (_rawValidators d)
    (_rawAsyncValidators d) (directive_calls d ++ [m]).

(** The [validator] getter of the directive classes
    ([BindFormControlDirective], [BindFormControlName]). *)
Definition dir_validator (d : NgBindControl) : option BindValidatorFn :=
  composeValidators (Some (_rawValidators d)).

(** The [asyncValidator] getter of the directive classes. *)
Definition dir_asyncValidator (d : NgBindControl)
  : option AsyncBindValidatorFn :=
  composeAsyncValidators (Some (_rawAsyncValidators d)).

(** A method call on [dir.valueAccessor]; on [null] the property access
    throws a [TypeError]. *)
Definition on_valueAccessor (m : AccessorCall) (d : NgBindControl)
  : Result NgBindControl :=
  match valueAccessor d with
  | Some a => Ok (set_valueAccessor (Some (accessor_call m a)) d)
  | None => Throw "TypeError"
  end.

(** shared.ts: [_throwError] *)
Definition _throwError {A : Type} (d : NgBindControl) (message : string)
  : Result A :=
  let messageEnd :=
    if Nat.ltb 1 (List.length (path d))
    then "path: '" ++ String.concat " -> " (path d) ++ "'"
    else if truthy (match path d with
                    | [] => VUndefined
                    | first :: _ => VStr first
                    end)
    then "name: '" ++ String.concat "," (path d) ++ "'"
    else "unspecified name attribute" in
  Throw (message ++ " " ++ messageEnd).

(** Modelled from the spec: the [BindFormControl] class lives in model.ts,
    which is not among the sources; it mirrors the upstream form control,
    an object with neither a [length] nor indexed properties.  Handed to
    [Function.prototype.apply] as the argument array, such an object
    yields the empty argument list. *)
Definition control_as_arguments (control : BindFormControl) : list JsValue :=
  [].

Section Pipelines.

(** Identity of two arrays or two objects, which the host decides. *)
Variable same_reference : JsValue -> JsValue -> bool.

(** [a === b] *)
Definition strict_equal (a b : JsValue) : bool :=
  match a, b with
  | VUndefined, VUndefined => true
  | VNull, VNull => true
  | VBool x, VBool y => Bool.eqb x y
  | VNum x, VNum y => PrimFloat.eqb x y
  | VStr x, VStr y => String.eqb x y
  | VArr _, VArr _ => same_reference a b
  | VObj _, VObj _ => same_reference a b
  | _, _ => false
  end.

(** shared.ts: [updateControl] *)
Definition updateControl (control : BindFormControl) (dir : NgBindControl)
  : BindFormControl * NgBindControl :=
  let control :=
    if _pendingDirty control then call markAsDirty control else control in
  let control :=
    match transformer control with
    | Some fn =>
        set_pendingValue
          (Function_apply fn [VBool (_pendingChange control)]) control
    | None => control
    end in
  let control := call (setValue (_pendingValue control) false) control in
  let dir := directive_call (viewToModelUpdate (_pendingValue control)) dir in
  let control := set_pendingChange false control in
  (control, dir).

(** shared.ts: the handler that [setUpViewChangePipeline] registers with
    [registerOnChange]; the view calls it with its new value. *)
Definition viewChangeHandler (newValue : JsValue)
    (control : BindFormControl) (dir : NgBindControl)
  : Result (BindFormControl * NgBindControl) :=
  let* (transformedValue, dir) :=
    match transformer control with
    | Some fn =>
        let transformedValue := Function_apply fn [newValue] in
        if negb (strict_equal transformedValue newValue)
        then
          let* dir := on_valueAccessor (writeValue transformedValue) dir in
          Ok (transformedValue, dir)
        else Ok (transformedValue, dir)
    | None => Ok (newValue, dir)
    end in
  let control := set_pendingValue transformedValue control in
  let control := set_pendingChange true control in
  let control := set_pendingDirty true control in
  if BindFormHooks_eqb (updateOn control) on_change
  then Ok (updateControl control dir)
  else Ok (control, dir).

(** shared.ts: the handler that [setUpBlurPipeline] registers with
    [registerOnTouched]. *)
Definition blurHandler (control : BindFormControl) (dir : NgBindControl)
  : BindFormControl * NgBindControl :=
  let control := set_pendingTouched true control in
  let '(control, dir) :=
    if BindFormHooks_eqb (updateOn control) on_blur && _pendingChange control
    then updateControl control dir
    else (control, dir) in
  let control :=
    if negb (BindFormHooks_eqb (updateOn control) on_submit)
    then call markAsTouched control
    else control in
  (control, dir).

(** shared.ts: the handler that [setUpModelChangePipeline] registers on the
    control; the model calls it with the new value and [emitModelEvent]. *)
Definition modelChangeHandler (newValue : JsValue) (emitModelEvent : bool)
    (control : BindFormControl) (dir : NgBindControl)
  : Result (BindFormControl * NgBindControl) :=
  let transformedValue :=
    match transformer control with
    | Some fn => Function_apply fn (control_as_arguments control)
    | None => newValue
    end in
  let* dir := on_valueAccessor (writeValue transformedValue) dir in
  let dir :=
    if emitModelEvent
    then directive_call (viewToModelUpdate transformedValue) dir
    else dir in
  Ok (control, dir).

(** shared.ts: [setUpViewChangePipeline] *)
Definition setUpViewChangePipeline (control : BindFormControl)
    (dir : NgBindControl) : Result NgBindControl :=
  on_valueAccessor (acc_registerOnChange viewChangePipeline) dir.

(** shared.ts: [setUpBlurPipeline] *)
Definition setUpBlurPipeline (control : BindFormControl)
    (dir : NgBindControl) : Result NgBindControl :=
  on_valueAccessor (acc_registerOnTouched blurPipeline) dir.

(** shared.ts: [setUpModelChangePipeline] *)
Definition setUpModelChangePipeline (control : BindFormControl)
    (dir : NgBindControl) : BindFormControl :=
  call registerOnChange control.

(** The two [forEach] loops that close [setUpControl]: every raw validator
    with a [registerOnValidatorChange] method receives a callback. *)
Fixpoint register_validator_changes (index : nat)
    (validators : list BindValidator) (dir : NgBindControl) : NgBindControl :=
  match validators with
  | [] => dir
  | ValidatorObject _ true :: rest =>
      register_validator_changes (S index) rest
        (directive_call (registerOnValidatorChange false index) dir)
  | _ :: rest => register_validator_changes (S index) rest dir
  end.

Fixpoint register_async_validator_changes (index : nat)
    (validators : list AsyncBindValidator) (dir : NgBindControl)
  : NgBindControl :=
  match validators with
  | [] => dir
  | AsyncValidatorObject _ true :: rest =>
      register_async_validator_changes (S index) rest
        (directive_call (registerOnValidatorChange true index) dir)
  | _ :: rest => register_async_validator_changes (S index) rest dir
  end.

(** shared.ts: [setUpControl]; [control] may be absent. *)
Definition setUpControl (control : option BindFormControl)
    (dir : NgBindControl) : Result (BindFormControl * NgBindControl) :=
  match control with
  | None => _throwError dir "Cannot find control with"
  | Some control =>
      match valueAccessor dir with
      | None => _throwError dir "No value accessor for form control with"
      | Some accessor =>
          let control :=
            set_validator
              (BindValidators.compose
                 (Some [validator control; dir_validator dir])) control in
          let control :=
            set_asyncValidator
              (BindValidators.composeAsync
                 (Some [asyncValidator control; dir_asyncValidator dir]))
              control in
          let* dir := on_valueAccessor (writeValue (value (base control))) dir in
          let* dir := setUpViewChangePipeline control dir in
          let control := setUpModelChangePipeline control dir in
          let* dir := setUpBlurPipeline control dir in
          let control :=
            if setDisabledState accessor
            then call registerOnDisabledChange control
            else control in
          let dir := register_validator_changes 0 (_rawValidators dir) dir in
          let dir :=
            register_async_validator_changes 0 (_rawAsyncValidators dir) dir in
          Ok (control, dir)
      end
  end.

End Pipelines.

(** ** Submitting a form *)



(** One round of the [forEach] of [syncPendingControls].  A directive shares
    its control with the form; a [control] getter that finds none makes the
    property access throw. *)
Definition sync_directive (form : gmap string BindFormControl)
    (dir : NgBindControl)
  : Result (gmap string BindFormControl * NgBindControl) :=
  match form !! control_name dir with
  | None => Throw "TypeError"
  | Some control =>
      if BindFormHooks_eqb (updateOn control) on_submit
         && _pendingChange control
      then
        let dir :=
          directive_call (viewToModelUpdate (_pendingValue control)) dir in
        let control := set_pendingChange false control in
        Ok (<[control_name dir := control]> form, dir)
      else Ok (form, dir)
  end.

Fixpoint sync_directives (form : gmap string BindFormControl)
    (directives : list NgBindControl)
  : Result (gmap string BindFormControl * list NgBindControl) :=
  match directives with
  | [] => Ok (form, [])
  | dir :: rest =>
      let* (form, dir) := sync_directive form dir in
      let* (form, rest) := sync_directives form rest in
      Ok (form, dir :: rest)
  end.


(** ** Choosing a value accessor *)

(** shared.ts: [BUILTIN_ACCESSORS] *)
Definition BUILTIN_ACCESSORS : list AccessorClass :=
  [ CheckboxControlBindValueAccessor;
    RangeBindValueAccessor;
    NumberBindValueAccessor;
    SelectControlBindValueAccessor;
    SelectMultipleControlBindValueAccessor;
    RadioControlBindValueAccessor ].

(** shared.ts: [isBuiltInAccessor] *)
Definition isBuiltInAccessor (valueAccessor : ControlBindValueAccessor)
  : bool :=
  existsb (fun a => AccessorClass_eqb (accessor_class valueAccessor) a)
    BUILTIN_ACCESSORS.

(** The [valueAccessors] argument: a falsy value, a value that is not an
    array, or an array of accessors. *)
Inductive ValueAccessorsArg : Type :=
| accessors_absent
| accessors_not_array
| accessors_array (valueAccessors : list ControlBindValueAccessor).

(** The three local variables of [selectValueAccessor]. *)
Record Selected : Type := mkSelected {
  defaultAccessor : option ControlBindValueAccessor;
  builtinAccessor : option ControlBindValueAccessor;
  customAccessor : option ControlBindValueAccessor
}.

(** The body of the [forEach] callback of [selectValueAccessor]. *)
Definition select_step (dir : NgBindControl) (sel : Selected)
    (v : ControlBindValueAccessor) : Result Selected :=
  if AccessorClass_eqb (accessor_class v) DefaultBindValueAccessor
  then Ok (mkSelected (Some v) (builtinAccessor sel) (customAccessor sel))
  else if isBuiltInAccessor v
  then
    if isPresent (builtinAccessor sel)
    then _throwError dir
           "More than one built-in value accessor matches form control with"
    else Ok (mkSelected (defaultAccessor sel) (Some v) (customAccessor sel))
  else
    if isPresent (customAccessor sel)
    then _throwError dir
           "More than one custom value accessor matches form control with"
    else Ok (mkSelected (defaultAccessor sel) (builtinAccessor sel) (Some v)).

Fixpoint select_each (dir : NgBindControl) (sel : Selected)
    (valueAccessors : list ControlBindValueAccessor) : Result Selected :=
  match valueAccessors with
  | [] => Ok sel
  | v :: rest =>
      let* sel := select_step dir sel v in
      select_each dir sel rest
  end.

(** shared.ts: [selectValueAccessor]; [Ok None] is the [null] result. *)
Definition selectValueAccessor (dir : NgBindControl)
    (valueAccessors : ValueAccessorsArg)
  : Result (option ControlBindValueAccessor) :=
  match valueAccessors with
  | accessors_absent => Ok None
  | accessors_not_array =>
      _throwError dir
        "Value accessor was not provided as an array for form control with"
  | accessors_array valueAccessors =>
      let* sel :=
        select_each dir (mkSelected None None None) valueAccessors in
      match customAccessor sel, builtinAccessor sel, defaultAccessor sel with
      | Some a, _, _ => Ok (Some a)
      | None, Some a, _ => Ok (Some a)
      | None, None, Some a => Ok (Some a)
      | None, None, None =>
          _throwError dir "No valid value accessor for form control with"
      end
  end.

(** ** The rest of directives/shared.ts *)

(** shared.ts: [controlPath]; the parent is read for its [path]. *)
Definition controlPath (name : string) (parent_path : list string)
  : list string :=
  (parent_path ++ [name])%list.

(** shared.ts: [_noControlError] *)
Definition _noControlError {A : Type} (dir : NgBindControl) : Result A :=
  _throwError dir
    "There is no BindFormControl instance attached to form control element with".

(** What [cleanUpControl] calls besides the value accessor:
    [registerOnValidatorChange(null)] on the raw validators that have the
    method (by position), and [_clearChangeFns] on the control. *)
Inductive CleanUpCall : Type :=
| clearOnValidatorChange (asynchronous : bool) (index : nat)
| _clearChangeFns.

Fixpoint clear_validator_changes (index : nat)
    (validators : list BindValidator) : list CleanUpCall :=
  match validators with
  | [] => []
  | ValidatorObject _ true :: rest =>
      clearOnValidatorChange false index
      :: clear_validator_changes (S index) rest
  | _ :: rest => clear_validator_changes (S index) rest
  end.

Fixpoint clear_async_validator_changes (index : nat)
    (validators : list AsyncBindValidator) : list CleanUpCall :=
  match validators with
  | [] => []
  | AsyncValidatorObject _ true :: rest =>
      clearOnValidatorChange true index
      :: clear_async_validator_changes (S index) rest
  | _ :: rest => clear_async_validator_changes (S index) rest
  end.

(** shared.ts: [cleanUpControl]; it returns the directive and the calls it
    made. *)
Definition cleanUpControl (control : option BindFormControl)
    (dir : NgBindControl) : Result (NgBindControl * list CleanUpCall) :=
  let* dir := on_valueAccessor (acc_registerOnChange noControlError) dir in
  let* dir := on_valueAccessor (acc_registerOnTouched noControlError) dir in
  Ok (dir,
      (clear_validator_changes 0 (_rawValidators dir)
       ++ clear_async_validator_changes 0 (_rawAsyncValidators dir)
       ++ if isPresent control then [_clearChangeFns] else [])%list).

(** The function last handed to [registerOnChange] of the accessor, if
    any.  What the accessor's own [onChange] does with it depends on the
    class: [DefaultBindValueAccessor] and the checkbox accessor store it
    as their [onChange]; [NumberBindValueAccessor] and
    [RangeBindValueAccessor] store a function that calls it with [null] or
    the parsed number; [RadioControlBindValueAccessor] one that calls it
    with the radio's [value] and then selects the radio in the registry.
    In each of them a change of the view ends in a call of this
    function. *)
Definition registered_onChange (a : ControlBindValueAccessor)
  : option ViewHandler :=
  last (omap (fun m => match m with
                       | acc_registerOnChange h => Some h
                       | _ => None
                       end) (accessor_calls a)).

(** The function last handed to [registerOnTouched] of the accessor, if
    any; the accessor classes of the sources store it as their
    [onTouched]. *)
Definition registered_onTouched (a : ControlBindValueAccessor)
  : option ViewHandler :=
  last (omap (fun m => match m with
                       | acc_registerOnTouched h => Some h
                       | _ => None
                       end) (accessor_calls a)).

Section Firing.

Variable same_reference : JsValue -> JsValue -> bool.

(** A call of one of the functions that shared.ts registers on an
    accessor, with the arguments it is called with; [control] and [dir]
    are the control and the directive the function closes over, as they
    are at the time of the call. *)
Definition run_handler (h : option ViewHandler) (args : list JsValue)
    (control : BindFormControl) (dir : NgBindControl)
  : Result (BindFormControl * NgBindControl) :=
  match h with
  | None => Ok (control, dir)
  | Some viewChangePipeline =>
      viewChangeHandler same_reference (nth 0 args VUndefined) control dir
  | Some blurPipeline => Ok (blurHandler control dir)
  | Some noControlError => _noControlError dir
  end.

(** A call [fn(v)] of the function last handed to [registerOnChange],
    [v] being the value the accessor passes to it. *)
Definition call_registered_onChange (a : ControlBindValueAccessor)
    (v : JsValue)
    (control : BindFormControl) (dir : NgBindControl)
  : Result (BindFormControl * NgBindControl) :=
  run_handler (registered_onChange a) [v] control dir.

(** A call [fn()] of the function last handed to [registerOnTouched]:
    the accessor reports a blur. *)
Definition call_registered_onTouched (a : ControlBindValueAccessor)
    (control : BindFormControl) (dir : NgBindControl)
  : Result (BindFormControl * NgBindControl) :=
  run_handler (registered_onTouched a) [] control dir.

(** [Object.is(a, b)]: it differs from [===] on numbers only, where [NaN]
    is itself and the two zeros are apart. *)
Definition Object_is (a b : JsValue) : bool :=
  match a, b with
  | VNum x, VNum y => PrimFloat.Leibniz.eqb x y
  | _, _ => strict_equal same_reference a b
  end.

(** A [SimpleChange] as [isPropertyUpdated] reads it. *)
Record SimpleChange : Type := mkSimpleChange {
  firstChange : bool;
  currentValue : JsValue
}.

(** shared.ts: [isPropertyUpdated] *)
Definition isPropertyUpdated (changes : gmap string SimpleChange)
    (viewModel : JsValue) : bool :=
  match changes !! "model" with
  | None => false
  | Some change =>
      if firstChange change then true
      else negb (Object_is viewModel (currentValue change))
  end.

End Firing.

(** A form group or form array as [setUpFormContainer] reads and writes
    it. *)
Record BindFormContainer : Type := mkContainer {
  container_validator : option BindValidatorFn;
  container_asyncValidator : option AsyncBindValidatorFn
}.

(** A container directive ([AbstractBindFormGroupDirective],
    [BindFormArrayName]): its validators are injected and may be absent. *)
Record ContainerDirective : Type := mkContainerDir {
  container_path : list string;
  _validators : option (list BindValidator);
  _asyncValidators : option (list AsyncBindValidator)
}.

(** The directive as [_throwError] reads it: through its [path]. *)
Definition as_directive (dir : ContainerDirective) : NgBindControl :=
  mkDir (container_path dir) "" None [] [] [].

(** shared.ts: [setUpFormContainer]; the [validator] and [asyncValidator]
    getters of the directive are [composeValidators(this._validators)] and
    [composeAsyncValidators(this._asyncValidators)]. *)
Definition setUpFormContainer (control : option BindFormContainer)
    (dir : ContainerDirective) : Result BindFormContainer :=
  match control with
  | None => _throwError (as_directive dir) "Cannot find control with"
  | Some control =>
      let validator :=
        BindValidators.compose
          (Some [container_validator control;
                 composeValidators (_validators dir)]) in
      let asyncValidator :=
        BindValidators.composeAsync
          (Some [container_asyncValidator control;
                 composeAsyncValidators (_asyncValidators dir)]) in
      Ok (mkContainer validator asyncValidator)
  end.

(** shared.ts: [_ngModelWarning].  [isDevMode] is the framework's; the
    result is the two flags as the call leaves them and the names passed
    to [ReactiveBindErrors.ngModelWarning]. *)
Definition _ngModelWarning (isDevMode : bool) (name : string)
    (type_ngModelWarningSentOnce : bool) (instance_ngModelWarningSent : bool)
    (warningConfig : option string) : bool * bool * list string :=
  if negb isDevMode || bool_decide (warningConfig = Some "never")
  then (type_ngModelWarningSentOnce, instance_ngModelWarningSent, [])
  else if (bool_decide (warningConfig = None)
           || bool_decide (warningConfig = Some "once"))
          && negb type_ngModelWarningSentOnce
          || bool_decide (warningConfig = Some "always")
             && negb instance_ngModelWarningSent
  then (true, true, [name])
  else (type_ngModelWarningSentOnce, instance_ngModelWarningSent, []).

(** ** The other files *)

Section RemoveDir.

Context {T : Type} `{EqDecision T}.

(** [list.indexOf(el)], [-1] when [el] is not in the list ([items]
    stands for the parameter [list]). *)
Fixpoint indexOf (items : list T) (el : T) : Z :=
  match items with
  | [] => (-1)%Z
  | x :: rest =>
      if decide (x = el) then 0%Z
      else
        let index := indexOf rest el in
        if (index <? 0)%Z then (-1)%Z else (index + 1)%Z
  end.

(** [list.splice(index, 1)] *)
Definition splice_one (index : nat) (items : list T) : list T :=
  (take index items ++ drop (S index) items)%list.

(** shared.ts (library root): [removeDir] *)
Definition removeDir (items : list T) (el : T) : list T :=
  let index := indexOf items el in
  if (-1 <? index)%Z then splice_one (Z.to_nat index) items else items.

End RemoveDir.

(** transformers.ts: [_executeTransformers] *)
Definition _executeTransformers (value : JsValue)
    (transformers : list BindTransformerFn) : JsValue :=
  fold_left (fun value fn => fn value) transformers value.

Module BindTransformers.

(** [BindTransformers.nullTransformer] *)
Definition nullTransformer (control : AbstractBindControl) : JsValue :=
  value control.

(** [BindTransformers.compose] *)
Definition compose (transformers : option (list (option BindTransformerFn)))
  : option BindTransformerFn :=
  match transformers with
  | None => None
  | Some ts =>
      let presentTransformers := present ts in
      if Nat.eqb (List.length presentTransformers) 0 then None
      else Some (fun value => _executeTransformers value presentTransformers)
  end.

End BindTransformers.

(** shared.ts: [composeTransformers] *)
Definition composeTransformers
    (transformers : option (list (option BindTransformerFn)))
  : option BindTransformerFn :=
  match transformers with
  | Some ts => BindTransformers.compose (Some ts)
  | None => None
  end.

(** ** Value accessors *)

(** The template literal [`${v}`]; [host_ToString] is [ToString] on
    numbers, arrays and objects. *)
Definition template_string (host_ToString : JsValue -> string) (v : JsValue)
  : string :=
  match v with
  | VStr s => s
  | VBool true => "true"
  | VBool false => "false"
  | VNull => "null"
  | VUndefined => "undefined"
  | VNum _ | VArr _ | VObj _ => host_ToString v
  end.

(** default_value_accessor.ts: the class [DefaultBindValueAccessor]. *)
Module DefaultBindValueAccessor.

(** An instance, with the [value] property of its element as last set
    through the renderer and the arguments of its [onChange] calls. *)
Record instance : Type := mkInstance {
  _compositionMode : bool;
  _composing : bool;
  element_value : option JsValue;
  onChange_calls : list JsValue
}.

(** The constructor: [_compositionMode] is injected and may be absent;
    [isAndroid] is the outcome of [_isAndroid()]. *)
Definition new (isAndroid : bool) (compositionMode : option bool)
  : instance :=
  mkInstance
    (match compositionMode with
     | Some mode => mode
     | None => negb isAndroid
     end)
    false None [].

(** [this.onChange(value)] *)
Definition onChange (v : JsValue) (this : instance) : instance :=
  mkInstance (_compositionMode this) (_composing this) (element_value this)
    (onChange_calls this ++ [v]).

Definition writeValue (v : JsValue) (this : instance) : instance :=
  let normalizedValue := if is_nullish v then VStr "" else v in
  mkInstance (_compositionMode this) (_composing this)
    (Some normalizedValue) (onChange_calls this).

Definition _handleInput (v : JsValue) (this : instance) : instance :=
  if negb (_compositionMode this)
     || (_compositionMode this && negb (_composing this))
  then onChange v this
  else this.

Definition _compositionStart (this : instance) : instance :=
  mkInstance (_compositionMode this) true (element_value this)
    (onChange_calls this).

Definition _compositionEnd (v : JsValue) (this : instance) : instance :=
  let this :=
    mkInstance (_compositionMode this) false (element_value this)
      (onChange_calls this) in
  if _compositionMode this then onChange v this else this.

End DefaultBindValueAccessor.

(** number_value_accessor.ts: the class [NumberBindValueAccessor]. *)
Module NumberBindValueAccessor.
Section Host.

Variable same_reference : JsValue -> JsValue -> bool.
Variable parseFloat : JsValue -> number.

(** [writeValue]: the value handed to the renderer. *)
Definition writeValue (v : JsValue) : JsValue :=
  if is_nullish v then VStr "" else v.

(** The [onChange] that [registerOnChange] installs: the argument that the
    registered function receives. *)
Definition onChange (v : JsValue) : JsValue :=
  if strict_equal same_reference v (VStr "") then VNull
  else VNum (parseFloat v).

End Host.
End NumberBindValueAccessor.

(** range_value_accessor.ts: the class [RangeBindValueAccessor]. *)
Module RangeBindValueAccessor.
Section Host.

Variable same_reference : JsValue -> JsValue -> bool.
Variable parseFloat : JsValue -> number.

(** [writeValue]: the value handed to the renderer. *)
Definition writeValue (v : JsValue) : JsValue :=
  VNum (parseFloat v).

(** The [onChange] that [registerOnChange] installs. *)
Definition onChange (v : JsValue) : JsValue :=
  if strict_equal same_reference v (VStr "") then VNull
  else VNum (parseFloat v).

End Host.
End RangeBindValueAccessor.

(** Truthiness of a string property that may be undefined. *)
Definition string_truthy (o : option string) : bool :=
  match o with
  | Some s => negb (String.eqb s "")
  | None => false
  end.

Definition quote : string := String "034"%char EmptyString.
Definition newline : string := String "010"%char EmptyString.

(** radio_control_value_accessor.ts: the class
    [RadioControlBindValueAccessor]. *)
Module RadioControlBindValueAccessor.

(** An [NgBindControl] as the radio code reads it: whether it has a
    [control], and its [_parent] (a reference, or null). *)
Record NgControl : Type := mkNgControl {
  control : bool;
  _parent : option nat
}.

(** An instance; [ref] is the identity of the object, [element_checked]
    the [checked] property of its element as last set through the
    renderer. *)
Record instance : Type := mkInstance {
  ref : nat;
  _control : NgControl;
  name : option string;
  formBindControlName : option string;
  value : JsValue;
  _state : option bool;
  element_checked : option bool
}.

Section Host.

Variable same_reference : JsValue -> JsValue -> bool.

Definition writeValue (v : JsValue) (this : instance) : instance :=
  let state := strict_equal same_reference v (value this) in
  mkInstance (ref this) (_control this) (name this)
    (formBindControlName this) (value this) (Some state) (Some state).

Definition fireUncheck (v : JsValue) (this : instance) : instance :=
  writeValue v this.

End Host.

(** The message of [_throwNameError]. *)
Definition name_error_message : string :=
  newline
  ++ "      If you define both a name and a formBindControlName attribute on your radio button, their values"
  ++ newline
  ++ "      must match. Ex: <input type=" ++ quote ++ "radio" ++ quote
  ++ " formBindControlName=" ++ quote ++ "food" ++ quote
  ++ " name=" ++ quote ++ "food" ++ quote ++ ">"
  ++ newline ++ "    ".

Definition _checkName (this : instance) : Result instance :=
  if string_truthy (name this)
     && string_truthy (formBindControlName this)
     && negb (bool_decide (name this = formBindControlName this))
  then Throw name_error_message
  else
    Ok (if negb (string_truthy (name this))
           && string_truthy (formBindControlName this)
        then mkInstance (ref this) (_control this)
               (formBindControlName this) (formBindControlName this)
               (value this) (_state this) (element_checked this)
        else this).

End RadioControlBindValueAccessor.

(** radio_control_value_accessor.ts: the class [RadioControlRegistry],
    as its [_accessors] array. *)
Module RadioControlRegistry.

Abbreviation registry :=
  (list (RadioControlBindValueAccessor.NgControl
         * RadioControlBindValueAccessor.instance)).

Definition add (control : RadioControlBindValueAccessor.NgControl)
    (accessor : RadioControlBindValueAccessor.instance)
    (_accessors : registry) : registry :=
  (_accessors ++ [(control, accessor)])%list.

(** The loop of [remove]: [i] runs from [n - 1] down to [0]. *)
Fixpoint remove_from (n : nat)
    (accessor : RadioControlBindValueAccessor.instance)
    (_accessors : registry) : registry :=
  match n with
  | 0 => _accessors
  | S i =>
      match _accessors !! i with
      | Some (_, a) =>
          if Nat.eqb (RadioControlBindValueAccessor.ref a)
               (RadioControlBindValueAccessor.ref accessor)
          then (take i _accessors ++ drop (S i) _accessors)%list
          else remove_from i accessor _accessors
      | None => remove_from i accessor _accessors
      end
  end.

Definition remove (accessor : RadioControlBindValueAccessor.instance)
    (_accessors : registry) : registry :=
  remove_from (List.length _accessors) accessor _accessors.

Definition _isSameGroup
    (controlPair : RadioControlBindValueAccessor.NgControl
                   * RadioControlBindValueAccessor.instance)
    (accessor : RadioControlBindValueAccessor.instance) : bool :=
  if negb (RadioControlBindValueAccessor.control (fst controlPair))
  then false
  else
    bool_decide
      (RadioControlBindValueAccessor._parent (fst controlPair)
       = RadioControlBindValueAccessor._parent
           (RadioControlBindValueAccessor._control accessor))
    && bool_decide
         (RadioControlBindValueAccessor.name (snd controlPair)
          = RadioControlBindValueAccessor.name accessor).

Section Host.

Variable same_reference : JsValue -> JsValue -> bool.

Definition select (accessor : RadioControlBindValueAccessor.instance)
    (_accessors : registry) : registry :=
  List.map
    (fun c =>
       if _isSameGroup c accessor
          && negb (Nat.eqb (RadioControlBindValueAccessor.ref (snd c))
                     (RadioControlBindValueAccessor.ref accessor))
       then (fst c,
             RadioControlBindValueAccessor.fireUncheck same_reference
               (RadioControlBindValueAccessor.value accessor) (snd c))
       else c)
    _accessors.

End Host.
End RadioControlRegistry.

(** [RadioControlBindValueAccessor.ngOnInit]: the injected control, the
    name check, the registration. *)
Definition Radio_ngOnInit
    (injected : RadioControlBindValueAccessor.NgControl)
    (this : RadioControlBindValueAccessor.instance)
    (_registry : RadioControlRegistry.registry)
  : Result (RadioControlBindValueAccessor.instance
            * RadioControlRegistry.registry) :=
  let this :=
    RadioControlBindValueAccessor.mkInstance
      (RadioControlBindValueAccessor.ref this) injected
      (RadioControlBindValueAccessor.name this)
      (RadioControlBindValueAccessor.formBindControlName this)
      (RadioControlBindValueAccessor.value this)
      (RadioControlBindValueAccessor._state this)
      (RadioControlBindValueAccessor.element_checked this) in
  let* this := RadioControlBindValueAccessor._checkName this in
  Ok (this,
      RadioControlRegistry.add
        (RadioControlBindValueAccessor._control this) this _registry).

(** [RadioControlBindValueAccessor.ngOnDestroy] *)
Definition Radio_ngOnDestroy (this : RadioControlBindValueAccessor.instance)
    (_registry : RadioControlRegistry.registry)
  : RadioControlRegistry.registry :=
  RadioControlRegistry.remove this _registry.

(** ** Validator directives (directives/validators.ts) *)

(** The class [RequiredValidator]. *)
Module RequiredValidator.

(** An instance; [_onChange] tells whether a callback is registered,
    [_onChange_calls] how often it was called. *)
Record instance : Type := mkInstance {
  _required : bool;
  _onChange : bool;
  _onChange_calls : nat
}.

Section Host.

Variable same_reference : JsValue -> JsValue -> bool.
Variable host_ToString : JsValue -> string.

(** The setter of [required]. *)
Definition set_required (v : JsValue) (this : instance) : instance :=
  let _required :=
    negb (is_nullish v)
    && negb (strict_equal same_reference v (VBool false))
    && negb (String.eqb (template_string host_ToString v) "false") in
  mkInstance _required (_onChange this)
    (if _onChange this then S (_onChange_calls this)
     else _onChange_calls this).

End Host.

Definition validate (this : instance) : BindValidatorFn :=
  fun control =>
    if _required this then BindValidators.required control
    else (control, None).

Definition registerOnValidatorChange (this : instance) : instance :=
  mkInstance (_required this) true (_onChange_calls this).

End RequiredValidator.

(** The class [CheckboxRequiredValidator], which extends
    [RequiredValidator] and overrides [validate]. *)
Module CheckboxRequiredValidator.

Definition validate (this : RequiredValidator.instance) : BindValidatorFn :=
  fun control =>
    if RequiredValidator._required this
    then BindValidators.requiredTrue control
    else (control, None).

End CheckboxRequiredValidator.

(** The class [EmailValidator]. *)
Module EmailValidator.

Record instance : Type := mkInstance {
  _enabled : bool;
  _onChange : bool;
  _onChange_calls : nat
}.

Section Host.

Variable same_reference : JsValue -> JsValue -> bool.
Variable regexp_test : RegExp -> JsValue -> bool.

(** The setter of [email]. *)
Definition set_email (v : JsValue) (this : instance) : instance :=
  let _enabled :=
    strict_equal same_reference v (VStr "")
    || strict_equal same_reference v (VBool true)
    || strict_equal same_reference v (VStr "true") in
  mkInstance _enabled (_onChange this)
    (if _onChange this then S (_onChange_calls this)
     else _onChange_calls this).

Definition validate (this : instance) : BindValidatorFn :=
  fun control =>
    if _enabled this then BindValidators.email regexp_test control
    else (control, None).

End Host.

Definition registerOnValidatorChange (this : instance) : instance :=
  mkInstance (_enabled this) true (_onChange_calls this).

End EmailValidator.

(** ** Notions used to state the properties *)

(** The union of the error maps of a list of results, [null] results
    adding nothing and every map overriding, key by key, the maps before
    it in the list. *)
Fixpoint union_of_errors (results : list (option ValidationBindErrors))
  : ValidationBindErrors :=
  match results with
  | [] => ∅
  | r :: rest => union_of_errors rest ∪ default ∅ r
  end.

(** A result that carries no error: [null], or a map without keys. *)
Definition reports_no_error (r : option ValidationBindErrors) : Prop :=
  r = None \/ r = Some ∅.

(** A validator result shaped as the glossary has it: no error, or an error
    map with at least one key. *)
Definition null_or_nonempty (r : option ValidationBindErrors) : Prop :=
  r = None \/ exists errors : gmap string JsValue, r = Some errors /\ errors ≠ ∅.

(** An empty value in the sense of the validators: [null], [undefined], or
    a value whose [length] is [0]. *)
Definition empty_value (v : JsValue) : Prop :=
  v = VNull \/ v = VUndefined \/ length_is_zero v = true.

(** The built-in validators of [BindValidators], with their arguments;
    for [pattern], the validator it returned. *)
Inductive BuiltIn : Type :=
| built_min (n : number)
| built_max (n : number)
| built_required
| built_requiredTrue
| built_email
| built_minLength (n : number)
| built_maxLength (n : number)
| built_pattern (v : PatternValidator)
| built_nullValidator.

Definition builtin_validator (parseFloat host_ToNumber : JsValue -> number)
    (regexp_test : RegExp -> JsValue -> bool) (b : BuiltIn)
  : BindValidatorFn :=
  match b with
  | built_min n => BindValidators.min parseFloat n
  | built_max n => BindValidators.max parseFloat n
  | built_required => BindValidators.required
  | built_requiredTrue => BindValidators.requiredTrue
  | built_email => BindValidators.email regexp_test
  | built_minLength n => BindValidators.minLength host_ToNumber n
  | built_maxLength n => BindValidators.maxLength host_ToNumber n
  | built_pattern v => BindValidators.pattern_validator regexp_test v
  | built_nullValidator => BindValidators.nullValidator
  end.

(** The validators that let empty values pass. *)
Definition skips_empty_values (b : BuiltIn) : bool :=
  match b with
  | built_min _ | built_max _ | built_email | built_minLength _
  | built_pattern _ => true
  | _ => false
  end.

(** The last character of a string. *)
Fixpoint last_char (str : string) : option ascii :=
  match str with
  | EmptyString => None
  | String ch EmptyString => Some ch
  | String _ rest => last_char rest
  end.

(** A string pattern anchored as the documentation of [pattern] says:
    [^] is put in front unless the string starts with it, [$] behind
    unless the string ends with it. *)
Definition anchored (str : string) : string :=
  let front := if String.prefix "^" str then str else "^" ++ str in
  match last_char str with
  | Some "$"%char => front
  | _ => front ++ "$"
  end.

(** The plain function a directive validator stands for: a function
    stands for itself, an object with a [validate] method for that
    method. *)
Definition validator_function (v : BindValidator) : BindValidatorFn :=
  match v with
  | ValidatorFunction fn => fn
  | ValidatorObject validate _ => validate
  end.

Definition async_validator_function (v : AsyncBindValidator)
  : AsyncBindValidatorFn :=
  match v with
  | AsyncValidatorFunction fn => fn
  | AsyncValidatorObject validate _ => validate
  end.

(** The validators that meet on a control when it is bound: its own, if it
    has one, then the functions the directive's validators stand for. *)
Definition validators_of_binding (control : BindFormControl)
    (dir : NgBindControl) : list BindValidatorFn :=
  (present [validator control]
   ++ List.map validator_function (_rawValidators dir))%list.

(** The same for the asynchronous validators. *)
Definition async_validators_of_binding (control : BindFormControl)
    (dir : NgBindControl) : list AsyncBindValidatorFn :=
  (present [asyncValidator control]
   ++ List.map async_validator_function (_rawAsyncValidators dir))%list.

(** The values passed to [setValue] among the calls a control received. *)
Definition setValue_arguments (l : list ControlCall) : list JsValue :=
  omap (fun m => match m with
                 | setValue v _ => Some v
                 | _ => None
                 end) l.

(** The three kinds of value accessor: the default one, the built-in ones
    of [BUILTIN_ACCESSORS], and custom ones (any other class). *)
Inductive AccessorKind : Type :=
| default_kind
| builtin_kind
| custom_kind.

Definition accessor_kind (v : ControlBindValueAccessor) : AccessorKind :=
  match accessor_class v with
  | DefaultBindValueAccessor => default_kind
  | CustomClass _ => custom_kind
  | _ => builtin_kind
  end.

Definition AccessorKind_eqb (a b : AccessorKind) : bool :=
  match a, b with
  | default_kind, default_kind
  | builtin_kind, builtin_kind
  | custom_kind, custom_kind => true
  | _, _ => false
  end.

(** The accessors of one kind in an array, in order. *)
Definition of_kind (k : AccessorKind) (l : list ControlBindValueAccessor)
  : list ControlBindValueAccessor :=
  List.filter (fun v => AccessorKind_eqb (accessor_kind v) k) l.

(** [1] for a variable that holds an accessor, [0] for one still
    undefined. *)
Definition present_count {A : Type} (o : option A) : nat :=
  if isPresent o then 1 else 0.

(** A view value after the control's transformer, if it has one. *)
Definition transformed (control : BindFormControl) (v : JsValue) : JsValue :=
  match transformer control with
  | Some fn => fn v
  | None => v
  end.

(** Whether a strategy is the one of the control. *)
Definition updates_on (hook : BindFormHooks) (control : BindFormControl)
  : bool :=
  BindFormHooks_eqb (updateOn control) hook.

(** What a transformer that may be absent does to a value. *)
Definition run_transformer (t : option BindTransformerFn) (v : JsValue)
  : JsValue :=
  match t with
  | Some fn => fn v
  | None => v
  end.

(** What a validator that may be absent does on a control. *)
Definition run_validator (v : option BindValidatorFn)
    (control : AbstractBindControl)
  : AbstractBindControl * option ValidationBindErrors :=
  match v with
  | Some fn => fn control
  | None => (control, None)
  end.

(** The events a text input sends to its [DefaultBindValueAccessor]. *)
Inductive InputEvent : Type :=
| input_event (v : JsValue)
| compositionstart_event
| compositionend_event (v : JsValue).

Definition handle_event (e : InputEvent)
    (a : DefaultBindValueAccessor.instance)
  : DefaultBindValueAccessor.instance :=
  match e with
  | input_event v => DefaultBindValueAccessor._handleInput v a
  | compositionstart_event => DefaultBindValueAccessor._compositionStart a
  | compositionend_event v => DefaultBindValueAccessor._compositionEnd v a
  end.

Definition handle_events (events : list InputEvent)
    (a : DefaultBindValueAccessor.instance)
  : DefaultBindValueAccessor.instance :=
  fold_left (fun a e => handle_event e a) events a.

(** The values of the [input] events of a list. *)
Definition input_values (events : list InputEvent) : list JsValue :=
  omap (fun e => match e with
                 | input_event v => Some v
                 | _ => None
                 end) events.

(** A directive class with its static [_ngModelWarningSentOnce], the
    [_ngModelWarningSent] of its instances (by reference, [false] when not
    listed), and the calls of [_ngModelWarning] that warned, each with the
    instance and the configuration it was made with. *)
Record WarningState : Type := mkWarningState {
  sent_once : bool;
  sent : gmap nat bool;
  warned : list (nat * option string)
}.

(** A call of [_ngModelWarning] for the instance [i] of the class. *)
Definition warn (isDevMode : bool) (name : string) (st : WarningState)
    (call : nat * option string) : WarningState :=
  let '(i, warningConfig) := call in
  let '(once, instance_sent, messages) :=
    _ngModelWarning isDevMode name (sent_once st)
      (default false (sent st !! i)) warningConfig in
  mkWarningState once (<[i := instance_sent]> (sent st))
    (warned st ++ match messages with
                  | [] => []
                  | _ :: _ => [call]
                  end).

Definition warn_all (isDevMode : bool) (name : string)
    (calls : list (nat * option string)) (st : WarningState)
  : WarningState :=
  fold_left (warn isDevMode name) calls st.

(** A run of view changes through the handler of the view-change
    pipeline. *)
Fixpoint view_changes (same_reference : JsValue -> JsValue -> bool)
    (values : list JsValue) (control : BindFormControl)
    (dir : NgBindControl) : Result (BindFormControl * NgBindControl) :=
  match values with
  | [] => Ok (control, dir)
  | v :: rest =>
      let* (control, dir) :=
        viewChangeHandler same_reference v control dir in
      view_changes same_reference rest control dir
  end.

(** The validators that meet on a container when it is bound. *)
Definition validators_of_container (control : BindFormContainer)
    (dir : ContainerDirective) : list BindValidatorFn :=
  (present [container_validator control]
   ++ List.map normalizeValidator (default [] (_validators dir)))%list.

(** The values a directive input of type [boolean | string] can take,
    absent ones included. *)
Definition boolean_or_string (v : JsValue) : Prop :=
  match v with
  | VUndefined | VNull | VBool _ | VStr _ => True
  | VNum _ | VArr _ | VObj _ => False
  end.

(** A configuration under which [_ngModelWarning] warns once per class:
    [null] or ['once']. *)
Definition once_per_class (warningConfig : option string) : bool :=
  bool_decide (warningConfig = None)
  || bool_decide (warningConfig = Some "once").

(** What holds of the flags and of the warnings issued so far. *)
Definition warning_invariant (st : WarningState) : Prop :=
  (forall call, call ∈ warned st -> sent st !! fst call = Some true)
  /\ (warned st <> [] -> sent_once st = true)
  /\ NoDup (List.map fst (warned st))
  /\ List.length
       (List.filter (fun call => once_per_class (snd call)) (warned st))
     <= 1.

(** The primitive values: everything but arrays and objects. *)
Definition primitive_value (v : JsValue) : Prop :=
  match v with
  | VArr _ | VObj _ => False
  | _ => True
  end.

(** Two states of a form with the same controls, the second differing
    from the first at most by pending changes that have been cleared. *)
Definition pending_cleared (form form' : gmap string BindFormControl)
  : Prop :=
  forall name,
    match form !! name, form' !! name with
    | Some c, Some c' =>
        updateOn c' = updateOn c
        /\ (_pendingChange c = false -> _pendingChange c' = false)
    | None, None => True
    | _, _ => False
    end.

(** A control that waits for a submit with a change pending. *)
Definition awaits_submit (control : BindFormControl) : bool :=
  BindFormHooks_eqb (updateOn control) on_submit && _pendingChange control.

(** The control with a view value buffered. *)
Definition buffered (v : JsValue) (control : BindFormControl)
  : BindFormControl :=
  set_pendingDirty true (set_pendingChange true (set_pendingValue v control)).

(** * Properties *)

(** ** Validators *)

Lemma isEmptyInputValue_empty (v : JsValue) :
  empty_value v -> isEmptyInputValue v = true.
Proof.
  unfold empty_value, isEmptyInputValue.
  intros [-> | [-> | H]]; try reflexivity.
  rewrite H. apply orb_true_r.
Qed.

Lemma empty_isEmptyInputValue (v : JsValue) :
  isEmptyInputValue v = true -> empty_value v.
Proof.
  unfold empty_value, isEmptyInputValue. intros H.
  apply orb_true_iff in H as [H | H].
  - destruct v; simpl in H; try discriminate; auto.
  - auto.
Qed.

Lemma singleton_null_or_nonempty (k : string) (x : JsValue) :
  null_or_nonempty (Some {[ k := x ]}).
Proof.
  right. exists {[ k := x ]}. split; [reflexivity | apply map_non_empty_singleton].
Qed.

Lemma None_null_or_nonempty : null_or_nonempty None.
Proof. left; reflexivity. Qed.

Create HintDb validators.
#[local] Hint Resolve singleton_null_or_nonempty None_null_or_nonempty : validators.

Ltac validator_cases :=
  repeat match goal with
         | |- context [if ?b then _ else _] => destruct b eqn:?
         end; simpl; auto with validators.

(** C7. Every built-in validator, applied to any control, returns [null] or
    an error map with at least one key, and leaves the control as it was;
    [min], [max], [email], [minLength] and [pattern] return [null] whenever
    the control's value is [null], [undefined] or of length 0. *)
Theorem builtin_validators_result
    (parseFloat host_ToNumber : JsValue -> number)
    (regexp_test : RegExp -> JsValue -> bool)
    (b : BuiltIn) (control : AbstractBindControl) :
  let v := builtin_validator parseFloat host_ToNumber regexp_test b in
  null_or_nonempty (snd (v control))
  /\ fst (v control) = control
  /\ (skips_empty_values b = true ->
      empty_value (value control) ->
      snd (v control) = None).
Proof.
  intros v. subst v. split; [| split].
  - destruct b as [n | n | | | | n | n | [| regex regexStr] |]; simpl;
      unfold BindValidators.min, BindValidators.max, BindValidators.required,
        BindValidators.requiredTrue, BindValidators.email,
        BindValidators.minLength, BindValidators.maxLength,
        BindValidators.pattern_check,
        BindValidators.nullValidator, reads; simpl;
      solve [validator_cases].
  - destruct b as [n | n | | | | n | n | [| regex regexStr] |]; reflexivity.
  - intros Hskip Hempty. apply isEmptyInputValue_empty in Hempty.
    destruct b as [n | n | | | | n | n | [| regex regexStr] |];
      simpl in Hskip; try discriminate; simpl;
      unfold BindValidators.min, BindValidators.max, BindValidators.email,
        BindValidators.minLength,
        BindValidators.pattern_check, BindValidators.nullValidator, reads;
      simpl; rewrite ?Hempty; simpl; reflexivity.
Qed.

Lemma builtin_validators_result_witness :
  snd (BindValidators.minLength (fun _ => 0%float) 3%float
         (mkControl (VStr "") false false false)) = None.
Proof.
  apply (builtin_validators_result (fun _ => 0%float) (fun _ => 0%float)
           (fun _ _ => false) (built_minLength 3%float)
           (mkControl (VStr "") false false false)).
  - reflexivity.
  - right; right; reflexivity.
Defined.

(** ** The [pattern] validator *)

Lemma get_last_char (str : string) :
  String.get (String.length str - 1) str = last_char str.
Proof.
  induction str as [| ch rest IH]; [reflexivity |].
  destruct rest as [| ch' rest']; [reflexivity |].
  simpl in *. rewrite Nat.sub_0_r in IH. exact IH.
Qed.

Lemma charAt_first (str : string) :
  String.eqb (charAt str 0) "^" = String.prefix "^" str.
Proof.
  destruct str as [| ch rest]; [reflexivity |].
  destruct ch as [[] [] [] [] [] [] [] []]; try reflexivity.
  destruct rest; reflexivity.
Qed.

Lemma charAt_last (str : string) :
  String.eqb (charAt str (String.length str - 1)) "$"
  = match last_char str with
    | Some "$"%char => true
    | _ => false
    end.
Proof.
  unfold charAt. rewrite get_last_char.
  destruct (last_char str) as [ch |]; [| reflexivity].
  simpl. destruct (Ascii.eqb ch "$") eqn:E.
  - apply Ascii.eqb_eq in E. subst ch. reflexivity.
  - destruct ch as [[] [] [] [] [] [] [] []]; try reflexivity; discriminate.
Qed.

Lemma pattern_regexStr_anchored (str : string) :
  BindValidators.pattern_regexStr str = anchored str.
Proof.
  unfold BindValidators.pattern_regexStr, anchored.
  rewrite charAt_first, charAt_last.
  destruct (String.prefix "^" str); simpl;
    destruct (last_char str) as [ch |]; simpl; try reflexivity;
    destruct ch as [[] [] [] [] [] [] [] []]; simpl; reflexivity.
Qed.

(** C10. [pattern] of a falsy argument returns [nullValidator], which
    returns [null] on every control.  Of a non-empty string it anchors the
    string, throws when the host does not compile the anchored string, and
    otherwise returns the check against the expression made from it, with
    no flag, which reports the anchored string as [requiredPattern].  Of a
    [RegExp] it returns the check against that very object, reporting its
    [toString()].  A call of the check returns [null] on an empty value
    without testing, and otherwise [null] exactly when the expression
    finds a match; it writes nothing but the [lastIndex] of an expression
    with the [g] or [y] flag, so that the check made from a string answers
    alike however often it is called. *)
Theorem pattern_normalizes_argument
    (valid_pattern : string -> bool)
    (regexp_test : RegExp -> JsValue -> bool)
    (regexp_end : RegExp -> JsValue -> nat) :
  (forall p, pattern_falsy p = true ->
     BindValidators.pattern valid_pattern p = Ok pattern_nullValidator)
  /\ (forall control,
        BindValidators.pattern_validator regexp_test pattern_nullValidator
          control
        = (control, None))
  /\ (forall str, str <> "" ->
        BindValidators.pattern valid_pattern (PatString str)
        = if valid_pattern (anchored str)
          then Ok (pattern_closure (mkRegExp (anchored str) "" 0)
                     (anchored str))
          else Throw "SyntaxError")
  /\ (forall re,
        BindValidators.pattern valid_pattern (PatRegExp re)
        = Ok (pattern_closure re (RegExp_toString re)))
  /\ (forall regex regexStr control,
        BindValidators.pattern_call regexp_test regexp_end regex regexStr
          control
        = (if isEmptyInputValue (value control)
              || negb (keeps_lastIndex regex)
           then regex
           else set_lastIndex
                  (if regexp_test regex (value control)
                   then regexp_end regex (value control)
                   else 0) regex,
           BindValidators.pattern_validator regexp_test
             (pattern_closure regex regexStr) control)
        /\ BindValidators.pattern_validator regexp_test
             (pattern_closure regex regexStr) control
           = (control,
              if isEmptyInputValue (value control) then None
              else if regexp_test regex (value control) then None
              else Some {[ "pattern" :=
                             VObj [("requiredPattern", VStr regexStr);
                                   ("actualValue", value control)] ]}))
  /\ (forall str control,
        fst (BindValidators.pattern_call regexp_test regexp_end
               (mkRegExp (anchored str) "" 0) (anchored str) control)
        = mkRegExp (anchored str) "" 0).
Proof.
  split; [| split; [| split; [| split; [| split]]]].
  - intros p Hp. unfold BindValidators.pattern. rewrite Hp. reflexivity.
  - intros control. reflexivity.
  - intros str Hne.
    unfold BindValidators.pattern. simpl.
    destruct (String.eqb str "") eqn:E.
    + apply String.eqb_eq in E. contradiction.
    + rewrite pattern_regexStr_anchored. unfold new_RegExp.
      destruct (valid_pattern (anchored str)); reflexivity.
  - intros re. reflexivity.
  - intros regex regexStr control. split; [| reflexivity].
    unfold BindValidators.pattern_call, BindValidators.pattern_validator,
      BindValidators.pattern_check, reads, RegExp_test.
    destruct (isEmptyInputValue (value control)); [reflexivity |].
    destruct regex as [src fl li].
    destruct (keeps_lastIndex (mkRegExp src fl li)); reflexivity.
  - intros str control. unfold BindValidators.pattern_call, RegExp_test.
    destruct (isEmptyInputValue (value control)); reflexivity.
Qed.

Lemma pattern_normalizes_argument_witness :
  BindValidators.pattern (fun _ => true) (PatString "[a-z]*")
  = Ok (pattern_closure (mkRegExp "^[a-z]*$" "" 0) "^[a-z]*$")
  /\ BindValidators.pattern (fun _ => false) (PatString "(")
     = Throw "SyntaxError".
Proof.
  split.
  - apply (proj1 (proj2 (proj2 (pattern_normalizes_argument
                                  (fun _ => true) (fun _ _ => false)
                                  (fun _ _ => 0)))) "[a-z]*").
    discriminate.
  - apply (proj1 (proj2 (proj2 (pattern_normalizes_argument
                                  (fun _ => false) (fun _ _ => false)
                                  (fun _ _ => 0)))) "(").
    discriminate.
Defined.

(** ** Merging error maps *)

Lemma merge_fold (l : list (option ValidationBindErrors))
    (init : gmap string JsValue) :
  fold_left
    (fun (res : gmap string JsValue) errors =>
       match errors with
       | Some e => e ∪ res
       | None => res
       end) l init
  = union_of_errors l ∪ init.
Proof.
  revert init. induction l as [| r rest IH]; intros init; simpl.
  - by rewrite (left_id_L ∅ (∪)).
  - rewrite IH. destruct r as [e |]; simpl.
    + by rewrite (assoc_L (∪)).
    + by rewrite (right_id_L ∅ (∪)).
Qed.

Lemma _mergeErrors_union (l : list (option ValidationBindErrors)) :
  _mergeErrors l
  = if decide (union_of_errors l = ∅) then None else Some (union_of_errors l).
Proof.
  unfold _mergeErrors. rewrite merge_fold.
  by rewrite (right_id_L ∅ (∪)).
Qed.

Lemma union_of_errors_app (l1 l2 : list (option ValidationBindErrors)) :
  union_of_errors (l1 ++ l2) = union_of_errors l2 ∪ union_of_errors l1.
Proof.
  induction l1 as [| r rest IH]; simpl.
  - by rewrite (right_id_L ∅ (∪)).
  - rewrite IH. by rewrite (assoc_L (∪)).
Qed.

Lemma union_of_errors_empty (l : list (option ValidationBindErrors)) :
  union_of_errors l = ∅ <-> Forall reports_no_error l.
Proof.
  induction l as [| r rest IH]; simpl.
  - split; [constructor | reflexivity].
  - split.
    + intros H. pose proof (map_positive_l _ _ H) as Hrest.
      rewrite Hrest, (left_id_L ∅ (∪)) in H.
      constructor; [| by apply IH].
      destruct r as [e |]; [right; simpl in H; by subst | by left].
    + intros H. inversion H as [| ? ? Hr Hrest]; subst.
      apply IH in Hrest. rewrite Hrest, (left_id_L ∅ (∪)).
      destruct Hr as [-> | ->]; reflexivity.
Qed.

Lemma union_of_errors_keys (l : list (option ValidationBindErrors))
    (k : string) :
  is_Some (union_of_errors l !! k)
  <-> exists e : gmap string JsValue, In (Some e) l /\ is_Some (e !! k).
Proof.
  induction l as [| r rest IH]; simpl.
  - rewrite lookup_empty. split; [intros [? ?]; discriminate |].
    intros (? & [] & _).
  - rewrite lookup_union, union_is_Some, IH. split.
    + intros [(e & Hin & Hk) | Hr].
      * exists e. auto.
      * destruct r as [e |]; simpl in Hr.
        -- exists e. auto.
        -- rewrite lookup_empty in Hr. destruct Hr; discriminate.
    + intros (e & [-> | Hin] & Hk).
      * right. exact Hk.
      * left. exists e. auto.
Qed.

Lemma union_of_errors_override (l1 l2 : list (option ValidationBindErrors))
    (e : gmap string JsValue) (k : string) (x : JsValue) :
  e !! k = Some x ->
  (forall e' : gmap string JsValue, In (Some e') l2 -> e' !! k = None) ->
  union_of_errors (l1 ++ Some e :: l2) !! k = Some x.
Proof.
  intros He Hlater.
  rewrite union_of_errors_app. simpl.
  assert (union_of_errors l2 !! k = None) as Hnone.
  { destruct (union_of_errors l2 !! k) eqn:E; [| reflexivity].
    assert (is_Some (union_of_errors l2 !! k)) as Hs by (rewrite E; eauto).
    apply union_of_errors_keys in Hs as (e' & Hin & [y Hy]).
    rewrite (Hlater e' Hin) in Hy. discriminate. }
  rewrite <- (assoc_L (∪)).
  rewrite lookup_union_r by exact Hnone.
  apply lookup_union_Some_l. exact He.
Qed.

Lemma _executeValidators_unchanged (control : AbstractBindControl)
    (validators : list BindValidatorFn) :
  Forall (fun v : BindValidatorFn => fst (v control) = control) validators ->
  _executeValidators control validators
  = (control, List.map (fun v : BindValidatorFn => snd (v control)) validators).
Proof.
  induction validators as [| v rest IH]; intros H; simpl; [reflexivity |].
  inversion H as [| ? ? Hv Hrest]; subst.
  destruct (v control) as [control1 r] eqn:E. simpl in Hv. subst control1.
  rewrite (IH Hrest). reflexivity.
Qed.

(** C2. [compose] of [null], or of an array without a present validator,
    is [null].  Otherwise it is a function which, on a control that the
    present validators only read, returns the union of their error maps on
    that control, later maps overriding earlier ones key by key; returns
    [null] exactly when that union is empty, that is when no validator
    reports an error; and leaves the control as it was. *)
Theorem compose_merges_error_maps
    (vs : list (option BindValidatorFn)) (control : AbstractBindControl) :
  Forall (fun v : BindValidatorFn => fst (v control) = control) (present vs) ->
  BindValidators.compose None = None
  /\ match present vs with
     | [] => BindValidators.compose (Some vs) = None
     | _ :: _ =>
         exists f : BindValidatorFn,
           BindValidators.compose (Some vs) = Some f
           /\ let results :=
                List.map (fun v : BindValidatorFn => snd (v control))
                  (present vs) in
              let union := union_of_errors results in
              fst (f control) = control
              /\ snd (f control)
                 = (if decide (union = ∅) then None else Some union)
              /\ (snd (f control) = None <-> Forall reports_no_error results)
              /\ (forall k,
                    is_Some (union !! k)
                    <-> exists e : gmap string JsValue,
                          In (Some e) results /\ is_Some (e !! k))
              /\ (forall l1 l2 (e : gmap string JsValue) k x,
                    results = (l1 ++ Some e :: l2)%list ->
                    e !! k = Some x ->
                    (forall e' : gmap string JsValue,
                       In (Some e') l2 -> e' !! k = None) ->
                    union !! k = Some x)
     end.
Proof.
  intros Hreads. split; [reflexivity |].
  unfold BindValidators.compose.
  destruct (present vs) as [| v rest] eqn:Hpresent; [reflexivity |].
  simpl Nat.eqb. cbv iota.
  eexists. split; [reflexivity |]. cbv beta zeta.
  rewrite (_executeValidators_unchanged control (v :: rest) Hreads).
  rewrite _mergeErrors_union.
  set (results := List.map _ (v :: rest)).
  split; [reflexivity |]. split; [reflexivity |]. split; [| split].
  - rewrite <- union_of_errors_empty. cbn [snd].
    destruct (decide (union_of_errors results = ∅)); split; intros ?; done.
  - intros k. apply union_of_errors_keys.
  - intros l1 l2 e k x -> He Hlater.
    by apply union_of_errors_override.
Qed.

Lemma compose_merges_error_maps_witness :
  exists f : BindValidatorFn,
    BindValidators.compose
      (Some [Some BindValidators.required; None;
             Some BindValidators.requiredTrue])
    = Some f
    /\ fst (f (mkControl (VStr "") false false false))
       = mkControl (VStr "") false false false
    /\ snd (f (mkControl (VStr "") false false false))
       = Some {[ "required" := VBool true ]}.
Proof.
  destruct (compose_merges_error_maps
              [Some BindValidators.required; None;
               Some BindValidators.requiredTrue]
              (mkControl (VStr "") false false false))
    as [_ (f & Hf & Hc & Hr & _)].
  - repeat constructor.
  - exists f. split; [exact Hf |]. split; [exact Hc |].
    rewrite Hr. vm_compute. reflexivity.
Defined.

(** ** Asynchronous composition *)

Lemma map_throwing_Ok {A B : Type} (f : A -> Result B) (l : list A)
    (k : list B) :
  Forall2 (fun a b => f a = Ok b) l k -> map_throwing f l = Ok k.
Proof.
  induction 1 as [| a b l k Hab _ IH]; simpl; [reflexivity |].
  rewrite Hab. simpl. rewrite IH. reflexivity.
Qed.

Lemma forkJoin_lasts {A : Type} (sources : list (Observable A))
    (lasts : list A) :
  sources <> [] ->
  Forall2 (fun (source : Observable A) e => last source = Some e)
    sources lasts ->
  forkJoin sources = [lasts].
Proof.
  intros Hne H. apply mapM_Some in H.
  unfold forkJoin, Observable in *.
  destruct sources as [| s rest]; [contradiction |].
  rewrite H. reflexivity.
Qed.

(** C5. [composeAsync] of [null], or of an array without a present
    validator, is [null].  Otherwise it is a function which runs every
    present validator on the control, turns each result into an observable
    and joins them with [forkJoin]; when every validator returns a promise
    or an observable that emits, the joined observable emits once, namely
    the merge of the validators' last error maps, which is [null] exactly
    when none of them reports an error. *)
Theorem composeAsync_merges_observables
    (vs : list (option AsyncBindValidatorFn)) (control : AbstractBindControl)
    (results : list AsyncResult)
    (observables : list (Observable (option ValidationBindErrors)))
    (lasts : list (option ValidationBindErrors)) :
  Forall2 (fun (v : AsyncBindValidatorFn) r => v control = Ok r)
    (present vs) results ->
  Forall2 (fun r o => toObservable r = Ok o) results observables ->
  Forall2 (fun (o : Observable (option ValidationBindErrors)) e =>
             last o = Some e) observables lasts ->
  BindValidators.composeAsync None = None
  /\ match present vs with
     | [] => BindValidators.composeAsync (Some vs) = None
     | _ :: _ =>
         exists f : AsyncBindValidatorFn,
           BindValidators.composeAsync (Some vs) = Some f
           /\ f control
              = Ok (AObservable (rx_map _mergeErrors (forkJoin observables)))
           /\ rx_map _mergeErrors (forkJoin observables)
              = [_mergeErrors lasts]
           /\ _mergeErrors lasts
              = (if decide (union_of_errors lasts = ∅) then None
                 else Some (union_of_errors lasts))
           /\ (_mergeErrors lasts = None <-> Forall reports_no_error lasts)
     end.
Proof.
  intros Hrun Hobs Hlast. split; [reflexivity |].
  unfold BindValidators.composeAsync.
  destruct (present vs) as [| v rest] eqn:Hpresent; [reflexivity |].
  simpl Nat.eqb. cbv iota.
  eexists. split; [reflexivity |]. cbv beta.
  unfold _executeAsyncValidators, AsyncBindValidatorFn in *.
  rewrite (map_throwing_Ok (fun v : _ -> Result AsyncResult => v control)
             _ _ Hrun).
  simpl. rewrite (map_throwing_Ok toObservable _ _ Hobs). simpl.
  split; [reflexivity |].
  assert (observables <> []) as Hne.
  { inversion Hrun; subst. inversion Hobs; subst. discriminate. }
  rewrite (forkJoin_lasts _ _ Hne Hlast).
  split; [reflexivity |].
  rewrite _mergeErrors_union. split; [reflexivity |].
  rewrite <- union_of_errors_empty.
  destruct (decide (union_of_errors lasts = ∅)); split; intros ?; done.
Qed.

Lemma composeAsync_merges_observables_witness :
  exists f : AsyncBindValidatorFn,
    BindValidators.composeAsync
      (Some [Some (fun _ => Ok (APromise (Some {[ "taken" := VBool true ]})));
             None;
             Some (fun _ => Ok (AObservable [Some {[ "a" := VNull ]}; None]))])
    = Some f
    /\ f (mkControl (VStr "x") false false false)
       = Ok (AObservable [Some {[ "taken" := VBool true ]}]).
Proof.
  destruct (composeAsync_merges_observables
              [Some (fun _ => Ok (APromise (Some {[ "taken" := VBool true ]})));
               None;
               Some (fun _ => Ok (AObservable [Some {[ "a" := VNull ]}; None]))]
              (mkControl (VStr "x") false false false)
              [APromise (Some {[ "taken" := VBool true ]});
               AObservable [Some {[ "a" := VNull ]}; None]]
              [[Some {[ "taken" := VBool true ]}];
               [Some {[ "a" := VNull ]}; None]]
              [Some {[ "taken" := VBool true ]}; None])
    as [_ (f & Hf & Hc & Hm & _)].
  - repeat constructor.
  - repeat constructor.
  - repeat constructor.
  - exists f. split; [exact Hf |]. rewrite Hc, Hm.
    vm_compute. reflexivity.
Defined.

(** ** Binding a control to a directive *)

Lemma present_map_Some {A B : Type} (f : A -> B) (l : list A) :
  present (List.map (fun a => Some (f a)) l) = List.map f l.
Proof.
  unfold present. induction l as [| a rest IH]; simpl; [reflexivity |].
  f_equal. exact IH.
Qed.

Lemma default_mergeErrors (errs : list (option ValidationBindErrors)) :
  default ∅ (_mergeErrors errs) = union_of_errors errs.
Proof.
  rewrite _mergeErrors_union.
  destruct (decide (union_of_errors errs = ∅)) as [-> |]; reflexivity.
Qed.

Lemma mergeErrors_nested (r : option ValidationBindErrors)
    (errs : list (option ValidationBindErrors)) :
  _mergeErrors [r; _mergeErrors errs] = _mergeErrors (r :: errs).
Proof.
  rewrite !_mergeErrors_union. simpl union_of_errors.
  rewrite <- _mergeErrors_union, default_mergeErrors.
  by rewrite (left_id_L ∅ (∪)).
Qed.

Lemma mergeErrors_single (errs : list (option ValidationBindErrors)) :
  _mergeErrors [_mergeErrors errs] = _mergeErrors errs.
Proof.
  rewrite (_mergeErrors_union [_]). simpl union_of_errors.
  rewrite default_mergeErrors, (left_id_L ∅ (∪)).
  symmetry. apply _mergeErrors_union.
Qed.

Lemma compose_list (raws : list BindValidatorFn) :
  BindValidators.compose
    (Some (List.map (fun v : BindValidatorFn => Some v) raws))
  = match raws with
    | [] => None
    | _ :: _ =>
        Some (fun c => let '(c', errs) := _executeValidators c raws in
                       (c', _mergeErrors errs))
    end.
Proof.
  unfold BindValidators.compose.
  rewrite (present_map_Some (fun v : BindValidatorFn => v)), map_id.
  destruct raws; reflexivity.
Qed.

(** Composing a validator with the composition of a list is composing the
    whole list. *)
Lemma compose_with_composed (old : option BindValidatorFn)
    (raws : list BindValidatorFn) :
  let nested :=
    BindValidators.compose
      (Some [old;
             BindValidators.compose
               (Some (List.map (fun v : BindValidatorFn => Some v) raws))]) in
  match (present [old] ++ raws)%list with
  | [] => nested = None
  | all =>
      exists f : BindValidatorFn,
        nested = Some f
        /\ forall c,
             f c = (let '(c', errs) := _executeValidators c all in
                    (c', _mergeErrors errs))
  end.
Proof.
  intros nested. subst nested. rewrite compose_list.
  destruct raws as [| r rs].
  - destruct old as [o |]; simpl; [| reflexivity].
    eexists. split; [reflexivity |]. intros c. reflexivity.
  - destruct old as [o |].
    + eexists. split; [reflexivity |]. intros c. cbn -[_mergeErrors].
      destruct (o c) as [c1 r1]. destruct (r c1) as [c2 r2].
      destruct (_executeValidators c2 rs) as [c3 errs].
      rewrite mergeErrors_nested. reflexivity.
    + eexists. split; [reflexivity |]. intros c. cbn -[_mergeErrors].
      destruct (r c) as [c2 r2].
      destruct (_executeValidators c2 rs) as [c3 errs].
      rewrite mergeErrors_single. reflexivity.
Qed.

Lemma normalizeValidator_function (v : BindValidator) :
  normalizeValidator v = validator_function v.
Proof.
  destruct v; reflexivity.
Qed.

Lemma normalizeAsyncValidator_function (v : AsyncBindValidator) :
  normalizeAsyncValidator v = async_validator_function v.
Proof.
  destruct v; reflexivity.
Qed.

(** What the composition of a non-empty list of asynchronous validators
    emits when each of them hands back a promise or an observable that
    emits. *)
Lemma composeAsync_list (raws : list AsyncBindValidatorFn)
    (c : AbstractBindControl) (results : list AsyncResult)
    (observables : list (Observable (option ValidationBindErrors)))
    (lasts : list (option ValidationBindErrors)) :
  raws <> [] ->
  Forall2 (fun (v : AsyncBindValidatorFn) r => v c = Ok r) raws results ->
  Forall2 (fun r o => toObservable r = Ok o) results observables ->
  Forall2 (fun (o : Observable (option ValidationBindErrors)) e =>
             last o = Some e) observables lasts ->
  exists f : AsyncBindValidatorFn,
    BindValidators.composeAsync
      (Some (List.map (fun v : AsyncBindValidatorFn => Some v) raws))
    = Some f
    /\ f c = Ok (AObservable [_mergeErrors lasts]).
Proof.
  intros Hne Hrun Hobs Hlast. unfold BindValidators.composeAsync.
  rewrite (present_map_Some (fun v : AsyncBindValidatorFn => v)), map_id.
  destruct raws as [| v rest]; [contradiction |].
  simpl Nat.eqb. cbv iota. eexists. split; [reflexivity |]. cbv beta.
  unfold _executeAsyncValidators, AsyncBindValidatorFn in *.
  rewrite (map_throwing_Ok (fun v : _ -> Result AsyncResult => v c)
             _ _ Hrun).
  simpl. rewrite (map_throwing_Ok toObservable _ _ Hobs). simpl.
  assert (observables <> []) as Hne'.
  { inversion Hrun; subst. inversion Hobs; subst. discriminate. }
  rewrite (forkJoin_lasts _ _ Hne' Hlast). reflexivity.
Qed.

(** Composing an asynchronous validator with the composition of a list
    emits what composing the whole list emits. *)
Lemma composeAsync_with_composed (old : option AsyncBindValidatorFn)
    (raws : list AsyncBindValidatorFn)
    (c : AbstractBindControl) (results : list AsyncResult)
    (observables : list (Observable (option ValidationBindErrors)))
    (lasts : list (option ValidationBindErrors)) :
  Forall2 (fun (v : AsyncBindValidatorFn) r => v c = Ok r)
    (present [old] ++ raws)%list results ->
  Forall2 (fun r o => toObservable r = Ok o) results observables ->
  Forall2 (fun (o : Observable (option ValidationBindErrors)) e =>
             last o = Some e) observables lasts ->
  let nested :=
    BindValidators.composeAsync
      (Some [old;
             BindValidators.composeAsync
               (Some (List.map (fun v : AsyncBindValidatorFn => Some v)
                        raws))]) in
  match (present [old] ++ raws)%list with
  | [] => nested = None
  | _ :: _ =>
      exists f : AsyncBindValidatorFn,
        nested = Some f /\ f c = Ok (AObservable [_mergeErrors lasts])
  end.
Proof.
  intros Hrun Hobs Hlast nested. subst nested.
  destruct raws as [| r rs].
  - destruct old as [o |]; [| reflexivity].
    simpl in *.
    inversion Hrun as [| ? r0 ? ? Ho Hnil]; subst.
    inversion Hnil; subst.
    inversion Hobs as [| ? o0 ? ? Hto Hnil']; subst.
    inversion Hnil'; subst.
    inversion Hlast as [| ? e0 ? ? Hl Hnil'']; subst.
    inversion Hnil''; subst.
    eexists. split; [reflexivity |]. cbv beta.
    unfold _executeAsyncValidators. cbn -[forkJoin _mergeErrors].
    unfold AsyncBindValidatorFn in *. rewrite Ho.
    cbn -[forkJoin _mergeErrors]. rewrite Hto.
    cbn -[forkJoin _mergeErrors].
    rewrite (forkJoin_lasts [o0] [e0]);
      [reflexivity | discriminate | repeat constructor; exact Hl].
  - destruct old as [o |].
    + simpl in Hrun.
      inversion Hrun as [| ? r0 ? results' Ho Hrun']; subst.
      inversion Hobs as [| ? o0 ? observables' Hto Hobs']; subst.
      inversion Hlast as [| ? e0 ? lasts' Hl Hlast']; subst.
      destruct (composeAsync_list (r :: rs) c results' observables' lasts')
        as (g & Hg & Hgc); [discriminate | assumption ..|].
      rewrite Hg. eexists. split; [reflexivity |]. cbv beta.
      unfold _executeAsyncValidators. cbn -[forkJoin _mergeErrors].
      unfold AsyncBindValidatorFn in *. rewrite Ho.
      cbn -[forkJoin _mergeErrors]. rewrite Hgc.
      cbn -[forkJoin _mergeErrors]. rewrite Hto.
      cbn -[forkJoin _mergeErrors].
      erewrite forkJoin_lasts;
        [| discriminate | repeat constructor; exact Hl].
      cbn -[_mergeErrors]. rewrite mergeErrors_nested. reflexivity.
    + simpl in Hrun.
      destruct (composeAsync_list (r :: rs) c results observables lasts)
        as (g & Hg & Hgc); [discriminate | assumption ..|].
      rewrite Hg. eexists. split; [reflexivity |]. cbv beta.
      unfold _executeAsyncValidators. cbn -[forkJoin _mergeErrors].
      unfold AsyncBindValidatorFn in *. rewrite Hgc.
      cbn -[forkJoin _mergeErrors].
      erewrite forkJoin_lasts; [| discriminate | repeat constructor].
      cbn -[_mergeErrors]. rewrite mergeErrors_single. reflexivity.
Qed.

(** C6. [setUpControl] throws when the control is absent or the directive
    has no value accessor.  When it returns, the control's validator is
    [compose] of its previous validator and the directive's, its
    asyncValidator [composeAsync] of the corresponding pair.  The
    directive's validators are composed from its raw validators once each
    is normalized: a function counts for itself, an object for its
    [validate] method.  The bound control then reports the merge of the
    error maps of both sources: its validator runs its previous validator
    and the directive's functions, in this order, and merges their
    results; its asyncValidator, when each of the previous asynchronous
    validator and the directive's hands back a promise or an observable
    that emits, emits once the merge of their last results. *)
Theorem setUpControl_composes_validators
    (control : BindFormControl) (dir : NgBindControl) :
  (exists message, setUpControl None dir = Throw message)
  /\ (valueAccessor dir = None ->
      exists message, setUpControl (Some control) dir = Throw message)
  /\ (forall accessor, valueAccessor dir = Some accessor ->
      exists control' dir',
        setUpControl (Some control) dir = Ok (control', dir')
        /\ validator control'
           = BindValidators.compose
               (Some [validator control; dir_validator dir])
        /\ asyncValidator control'
           = BindValidators.composeAsync
               (Some [asyncValidator control; dir_asyncValidator dir])
        /\ dir_validator dir
           = BindValidators.compose
               (Some (List.map (fun v => Some (normalizeValidator v))
                        (_rawValidators dir)))
        /\ dir_asyncValidator dir
           = BindValidators.composeAsync
               (Some (List.map (fun v => Some (normalizeAsyncValidator v))
                        (_rawAsyncValidators dir)))
        /\ (forall v c, normalizeValidator v c = validator_function v c)
        /\ (forall v c,
              normalizeAsyncValidator v c = async_validator_function v c)
        /\ match validators_of_binding control dir with
           | [] => validator control' = None
           | all =>
               exists f : BindValidatorFn,
                 validator control' = Some f
                 /\ forall c,
                      f c = (let '(c', errs) := _executeValidators c all in
                             (c', _mergeErrors errs))
           end
        /\ (forall c results observables lasts,
              Forall2 (fun (v : AsyncBindValidatorFn) r => v c = Ok r)
                (async_validators_of_binding control dir) results ->
              Forall2 (fun r o => toObservable r = Ok o)
                results observables ->
              Forall2 (fun (o : Observable (option ValidationBindErrors))
                           e => last o = Some e) observables lasts ->
              match async_validators_of_binding control dir with
              | [] => asyncValidator control' = None
              | _ :: _ =>
                  exists f : AsyncBindValidatorFn,
                    asyncValidator control' = Some f
                    /\ f c = Ok (AObservable [_mergeErrors lasts])
              end)).
Proof.
  split; [| split].
  - unfold setUpControl, _throwError. eauto.
  - intros Hnone. unfold setUpControl, _throwError. rewrite Hnone. eauto.
  - intros accessor Hacc.
    unfold setUpControl, setUpViewChangePipeline, setUpBlurPipeline,
      setUpModelChangePipeline, on_valueAccessor.
    rewrite Hacc. simpl.
    do 2 eexists. split; [reflexivity |].
    split; [destruct (setDisabledState accessor); reflexivity |].
    split; [destruct (setDisabledState accessor); reflexivity |].
    split; [reflexivity |]. split; [reflexivity |].
    split; [intros v c; rewrite normalizeValidator_function; reflexivity |].
    split;
      [intros v c; rewrite normalizeAsyncValidator_function; reflexivity |].
    assert (forall c : BindFormControl,
              validator (if setDisabledState accessor
                         then call registerOnDisabledChange c else c)
              = validator c) as Hkeep
      by (intros c; destruct (setDisabledState accessor); reflexivity).
    assert (forall c : BindFormControl,
              asyncValidator (if setDisabledState accessor
                              then call registerOnDisabledChange c else c)
              = asyncValidator c) as Hkeep'
      by (intros c; destruct (setDisabledState accessor); reflexivity).
    rewrite Hkeep, Hkeep'. simpl validator. simpl asyncValidator.
    split.
    + unfold dir_validator, composeValidators, validators_of_binding.
      pose proof (compose_with_composed (validator control)
                    (List.map validator_function (_rawValidators dir))) as H.
      cbv zeta in H. rewrite map_map in H.
      rewrite (map_ext (fun v => Some (normalizeValidator v))
                 (fun v => Some (validator_function v)));
        [exact H |].
      intros v. rewrite normalizeValidator_function. reflexivity.
    + intros c results observables lasts Hrun Hobs Hlast.
      unfold dir_asyncValidator, composeAsyncValidators.
      unfold async_validators_of_binding in *.
      pose proof (composeAsync_with_composed (asyncValidator control)
                    (List.map async_validator_function
                       (_rawAsyncValidators dir))
                    c results observables lasts Hrun Hobs Hlast) as H.
      cbv zeta in H. rewrite map_map in H.
      rewrite (map_ext (fun v => Some (normalizeAsyncValidator v))
                 (fun v => Some (async_validator_function v)));
        [exact H |].
      intros v. rewrite normalizeAsyncValidator_function. reflexivity.
Qed.

Lemma setUpControl_composes_validators_witness :
  exists control' dir',
    setUpControl
      (Some (mkBindFormControl (mkControl (VStr "") false false false)
               (Some BindValidators.required)
               (Some (fun _ => Ok (APromise (Some {[ "taken" := VBool true ]}))))
               None on_change VUndefined false false false []))
      (mkDir [] "name" (Some (mkAccessor DefaultBindValueAccessor false []))
         [ValidatorObject BindValidators.requiredTrue true]
         [AsyncValidatorObject
            (fun _ => Ok (AObservable [Some {[ "a" := VNull ]}; None])) false]
         [])
    = Ok (control', dir')
    /\ (exists f : BindValidatorFn,
          validator control' = Some f
          /\ f (mkControl (VStr "") false false false)
             = (mkControl (VStr "") false false false,
                Some {[ "required" := VBool true ]}))
    /\ (exists f : AsyncBindValidatorFn,
          asyncValidator control' = Some f
          /\ f (mkControl (VStr "") false false false)
             = Ok (AObservable [Some {[ "taken" := VBool true ]}])).
Proof.
  destruct (setUpControl_composes_validators
              (mkBindFormControl (mkControl (VStr "") false false false)
                 (Some BindValidators.required)
                 (Some (fun _ =>
                          Ok (APromise (Some {[ "taken" := VBool true ]}))))
                 None on_change VUndefined false false false [])
              (mkDir [] "name"
                 (Some (mkAccessor DefaultBindValueAccessor false []))
                 [ValidatorObject BindValidators.requiredTrue true]
                 [AsyncValidatorObject
                    (fun _ =>
                       Ok (AObservable [Some {[ "a" := VNull ]}; None]))
                    false]
                 []))
    as (_ & _ & H).
  destruct (H (mkAccessor DefaultBindValueAccessor false []) eq_refl)
    as (control' & dir' & Hok & _ & _ & _ & _ & _ & _ & (f & Hf & Hall)
        & Hasync).
  exists control', dir'. split; [exact Hok |]. split.
  - exists f. split; [exact Hf |].
    rewrite Hall. vm_compute. reflexivity.
  - destruct (Hasync (mkControl (VStr "") false false false)
                [APromise (Some {[ "taken" := VBool true ]});
                 AObservable [Some {[ "a" := VNull ]}; None]]
                [[Some {[ "taken" := VBool true ]}];
                 [Some {[ "a" := VNull ]}; None]]
                [Some {[ "taken" := VBool true ]}; None])
      as (g & Hg & Hgc); [repeat constructor .. |].
    exists g. split; [exact Hg |]. rewrite Hgc.
    vm_compute. reflexivity.
Defined.

(** ** Choosing a value accessor *)

Lemma select_step_kind (dir : NgBindControl) (sel : Selected)
    (v : ControlBindValueAccessor) :
  select_step dir sel v
  = match accessor_kind v with
    | default_kind =>
        Ok (mkSelected (Some v) (builtinAccessor sel) (customAccessor sel))
    | builtin_kind =>
        if isPresent (builtinAccessor sel)
        then _throwError dir
               "More than one built-in value accessor matches form control with"
        else Ok (mkSelected (defaultAccessor sel) (Some v)
                   (customAccessor sel))
    | custom_kind =>
        if isPresent (customAccessor sel)
        then _throwError dir
               "More than one custom value accessor matches form control with"
        else Ok (mkSelected (defaultAccessor sel) (builtinAccessor sel)
                   (Some v))
    end.
Proof.
  destruct v as [cls sds log]. destruct cls; reflexivity.
Qed.

Lemma last_cons_filter {A : Type} (a : A) (l : list A) (d : option A) :
  match last (a :: l) with
  | Some x => Some x
  | None => d
  end
  = match last l with
    | Some x => Some x
    | None => Some a
    end.
Proof.
  destruct l as [| x xs]; [reflexivity |].
  change (last (a :: x :: xs)) with (last (x :: xs)).
  destruct (last (x :: xs)) eqn:E; [reflexivity |].
  apply last_None in E. discriminate.
Qed.

Lemma select_each_outcome (dir : NgBindControl)
    (l : list ControlBindValueAccessor) :
  forall sel : Selected,
    match select_each dir sel l with
    | Throw _ =>
        2 <= present_count (builtinAccessor sel)
             + List.length (of_kind builtin_kind l)
        \/ 2 <= present_count (customAccessor sel)
                + List.length (of_kind custom_kind l)
    | Ok sel' =>
        present_count (builtinAccessor sel)
        + List.length (of_kind builtin_kind l) <= 1
        /\ present_count (customAccessor sel)
           + List.length (of_kind custom_kind l) <= 1
        /\ defaultAccessor sel'
           = match last (of_kind default_kind l) with
             | Some a => Some a
             | None => defaultAccessor sel
             end
        /\ builtinAccessor sel'
           = match of_kind builtin_kind l with
             | a :: _ => Some a
             | [] => builtinAccessor sel
             end
        /\ customAccessor sel'
           = match of_kind custom_kind l with
             | a :: _ => Some a
             | [] => customAccessor sel
             end
    end.
Proof.
  induction l as [| v rest IH]; intros [d b c].
  - simpl. unfold present_count.
    destruct (isPresent b), (isPresent c); simpl; repeat split; lia.
  - simpl select_each. rewrite select_step_kind.
    unfold of_kind in *. simpl List.filter.
    destruct (accessor_kind v); simpl AccessorKind_eqb; cbv iota;
      simpl builtinAccessor; simpl customAccessor; simpl defaultAccessor.
    + simpl Result_bind.
      specialize (IH (mkSelected (Some v) b c)). simpl in IH.
      destruct (select_each dir (mkSelected (Some v) b c) rest) as [sel' | msg];
        [| exact IH].
      destruct IH as (Hb & Hc & Hd' & Hb' & Hc').
      repeat split; try assumption.
      rewrite Hd'. symmetry. apply last_cons_filter.
    + destruct b as [b0 |]; simpl.
      * left. lia.
      * specialize (IH (mkSelected d (Some v) c)). simpl in IH.
        destruct (select_each dir (mkSelected d (Some v) c) rest)
          as [sel' | msg].
        -- destruct IH as (Hb & Hc & Hd' & Hb' & Hc').
           repeat split; try assumption; try lia.
           rewrite Hb'.
           destruct (List.filter
                       (fun x => AccessorKind_eqb (accessor_kind x) builtin_kind)
                       rest); [reflexivity |].
           simpl in Hb. lia.
        -- destruct IH as [IH | IH]; [left | right]; simpl in *; lia.
    + destruct c as [c0 |]; simpl.
      * right. lia.
      * specialize (IH (mkSelected d b (Some v))). simpl in IH.
        destruct (select_each dir (mkSelected d b (Some v)) rest)
          as [sel' | msg].
        -- destruct IH as (Hb & Hc & Hd' & Hb' & Hc').
           repeat split; try assumption; try lia.
           rewrite Hc'.
           destruct (List.filter
                       (fun x => AccessorKind_eqb (accessor_kind x) custom_kind)
                       rest); [reflexivity |].
           simpl in Hc. lia.
        -- destruct IH as [IH | IH]; [left | right]; simpl in *; lia.
Qed.

(** C9. [selectValueAccessor] returns [null] for an absent accessor list.
    For an array it throws when more than one custom or more than one
    built-in accessor is present; otherwise it returns the custom accessor
    if there is one, else the built-in accessor if there is one, else the
    default accessor (the last one given), and throws when there is none
    at all. *)
Theorem selectValueAccessor_priority (dir : NgBindControl)
    (valueAccessors : list ControlBindValueAccessor) :
  selectValueAccessor dir accessors_absent = Ok None
  /\ match of_kind custom_kind valueAccessors,
           of_kind builtin_kind valueAccessors with
     | _ :: _ :: _, _ | _, _ :: _ :: _ =>
         exists message,
           selectValueAccessor dir (accessors_array valueAccessors)
           = Throw message
     | [a], _ =>
         selectValueAccessor dir (accessors_array valueAccessors)
         = Ok (Some a)
     | [], [a] =>
         selectValueAccessor dir (accessors_array valueAccessors)
         = Ok (Some a)
     | [], [] =>
         match last (of_kind default_kind valueAccessors) with
         | Some a =>
             selectValueAccessor dir (accessors_array valueAccessors)
             = Ok (Some a)
         | None =>
             exists message,
               selectValueAccessor dir (accessors_array valueAccessors)
               = Throw message
         end
     end.
Proof.
  split; [reflexivity |].
  unfold selectValueAccessor.
  pose proof (select_each_outcome dir valueAccessors
                (mkSelected None None None)) as H.
  destruct (select_each dir (mkSelected None None None) valueAccessors)
    as [[d b c] | msg]; simpl in H.
  - destruct H as (Hb & Hc & -> & -> & ->). simpl Result_bind. cbv beta.
    simpl customAccessor. simpl builtinAccessor. simpl defaultAccessor.
    destruct (of_kind custom_kind valueAccessors) as [| c1 [| c2 cs]];
      destruct (of_kind builtin_kind valueAccessors) as [| b1 [| b2 bs]];
      simpl in Hb, Hc; try lia; try reflexivity.
    destruct (last (of_kind default_kind valueAccessors));
      [reflexivity | unfold _throwError; eauto].
  - simpl Result_bind.
    destruct (of_kind custom_kind valueAccessors) as [| c1 [| c2 cs]];
      destruct (of_kind builtin_kind valueAccessors) as [| b1 [| b2 bs]];
      simpl in H; try (exfalso; lia); eauto.
Qed.

(** ** The view-change, blur and submit pipelines *)

Lemma setValue_arguments_app (l1 l2 : list ControlCall) :
  setValue_arguments (l1 ++ l2)
  = (setValue_arguments l1 ++ setValue_arguments l2)%list.
Proof.
  unfold setValue_arguments. apply omap_app.
Qed.

(** What [updateControl] calls on the control: [markAsDirty] if a dirty
    mark is pending, then [setValue]. *)
Lemma updateControl_calls (control : BindFormControl) (dir : NgBindControl) :
  exists v,
    calls (fst (updateControl control dir))
    = (calls control
       ++ (if _pendingDirty control then [markAsDirty] else [])
       ++ [setValue v false])%list
    /\ (transformer control = None -> v = _pendingValue control)
    /\ _pendingDirty (fst (updateControl control dir)) = _pendingDirty control
    /\ _pendingTouched (fst (updateControl control dir))
       = _pendingTouched control
    /\ updateOn (fst (updateControl control dir)) = updateOn control.
Proof.
  unfold updateControl.
  destruct (transformer control) as [fn |] eqn:Ht;
    destruct (_pendingDirty control) eqn:Hd; simpl;
    rewrite ?Ht; simpl; rewrite ?Hd; eexists;
    (split; [try rewrite <- app_assoc; reflexivity |]);
    (split; [intros; try discriminate; reflexivity |]); auto.
Qed.

Lemma viewChangeHandler_returns (same_reference : JsValue -> JsValue -> bool)
    (newValue : JsValue) (control : BindFormControl) (dir : NgBindControl)
    (accessor : ControlBindValueAccessor) :
  valueAccessor dir = Some accessor ->
  exists buffered dir1,
    _pendingValue buffered = transformed control newValue
    /\ _pendingChange buffered = true
    /\ _pendingDirty buffered = true
    /\ calls buffered = calls control
    /\ transformer buffered = transformer control
    /\ viewChangeHandler same_reference newValue control dir
       = Ok (if updates_on on_change control
             then updateControl buffered dir1
             else (buffered, dir1)).
Proof.
  intros Hacc. unfold viewChangeHandler, transformed, updates_on.
  destruct (transformer control) as [fn |] eqn:Ht; simpl;
    [destruct (strict_equal same_reference (Function_apply fn [newValue])
                 newValue); simpl;
     [| unfold on_valueAccessor; rewrite Hacc; simpl] |];
    eexists (set_pendingDirty true
               (set_pendingChange true (set_pendingValue _ control))), _;
    (split; [reflexivity |]); (split; [reflexivity |]);
    (split; [reflexivity |]); (split; [reflexivity |]);
    (split; [exact Ht |]);
    destruct (BindFormHooks_eqb (updateOn control) on_change); reflexivity.
Qed.

Lemma blurHandler_steps (control : BindFormControl) (dir : NgBindControl) :
  blurHandler control dir
  = (let touched := set_pendingTouched true control in
     let propagated :=
       if updates_on on_blur control && _pendingChange control
       then updateControl touched dir
       else (touched, dir) in
     (if negb (updates_on on_submit control)
      then call markAsTouched (fst propagated)
      else fst propagated,
      snd propagated)).
Proof.
  unfold blurHandler, updates_on. cbv zeta.
  change (updateOn (set_pendingTouched true control))
    with (updateOn control).
  change (_pendingChange (set_pendingTouched true control))
    with (_pendingChange control).
  destruct (BindFormHooks_eqb (updateOn control) on_blur
            && _pendingChange control).
  - destruct (updateControl_calls (set_pendingTouched true control) dir)
      as (v & _ & _ & _ & _ & Hon).
    destruct (updateControl (set_pendingTouched true control) dir)
      as [control1 dir1].
    simpl in Hon. simpl. rewrite Hon. reflexivity.
  - reflexivity.
Qed.


Lemma registered_after_both (a : ControlBindValueAccessor)
    (h1 h2 : ViewHandler) :
  registered_onChange
    (accessor_call (acc_registerOnTouched h2)
       (accessor_call (acc_registerOnChange h1) a)) = Some h1
  /\ registered_onTouched
       (accessor_call (acc_registerOnTouched h2)
          (accessor_call (acc_registerOnChange h1) a)) = Some h2.
Proof.
  unfold registered_onChange, registered_onTouched, accessor_call. simpl.
  rewrite !omap_app. simpl. rewrite !app_nil_r, !last_snoc.
  split; reflexivity.
Qed.

Lemma pending_cleared_refl (form : gmap string BindFormControl) :
  pending_cleared form form.
Proof.
  intros name. destruct (form !! name); [split; auto | exact I].
Qed.

Lemma pending_cleared_trans (f1 f2 f3 : gmap string BindFormControl) :
  pending_cleared f1 f2 -> pending_cleared f2 f3 -> pending_cleared f1 f3.
Proof.
  intros H12 H23 name. specialize (H12 name). specialize (H23 name).
  destruct (f1 !! name), (f2 !! name), (f3 !! name); try tauto.
  destruct H12 as [Hu Hp], H23 as [Hu' Hp']. split.
  - congruence.
  - auto.
Qed.

Lemma pending_cleared_settled (f f' : gmap string BindFormControl)
    (name : string) :
  pending_cleared f f' ->
  (exists c, f !! name = Some c /\ awaits_submit c = false) ->
  exists c', f' !! name = Some c' /\ awaits_submit c' = false.
Proof.
  intros H (c & Hc & Hs). specialize (H name). rewrite Hc in H.
  destruct (f' !! name) as [c' |]; [| contradiction].
  exists c'. split; [reflexivity |]. destruct H as [Hu Hp].
  unfold awaits_submit in *. rewrite Hu.
  apply andb_false_iff in Hs as [Hs | Hs].
  - rewrite Hs. reflexivity.
  - rewrite (Hp Hs). apply andb_false_r.
Qed.

Lemma sync_directive_step (form : gmap string BindFormControl)
    (dir : NgBindControl) :
  is_Some (form !! control_name dir) ->
  exists form1 dir1,
    sync_directive form dir = Ok (form1, dir1)
    /\ control_name dir1 = control_name dir
    /\ pending_cleared form form1
    /\ exists c, form1 !! control_name dir = Some c
                 /\ awaits_submit c = false.
Proof.
  intros [control Hc]. unfold sync_directive. rewrite Hc.
  destruct (BindFormHooks_eqb (updateOn control) on_submit
            && _pendingChange control) eqn:Hcond.
  - do 2 eexists. split; [reflexivity |]. split; [reflexivity |].
    unfold directive_call. simpl control_name. split.
    + intros name. rewrite lookup_insert. case_decide.
      * subst name. rewrite Hc. split; [reflexivity |].
        intros _. reflexivity.
      * destruct (form !! name); [split; auto | exact I].
    + eexists. rewrite lookup_insert_eq. split; [reflexivity |].
      unfold awaits_submit. simpl. apply andb_false_r.
  - do 2 eexists. split; [reflexivity |]. split; [reflexivity |].
    split; [apply pending_cleared_refl |].
    exists control. split; [exact Hc | exact Hcond].
Qed.

Lemma sync_directives_settled (directives : list NgBindControl)
    (form : gmap string BindFormControl) :
  Forall (fun dir =>
            exists c, form !! control_name dir = Some c
                      /\ awaits_submit c = false) directives ->
  sync_directives form directives = Ok (form, directives).
Proof.
  induction 1 as [| dir rest (c & Hc & Hs) _ IH]; [reflexivity |].
  simpl. unfold sync_directive. rewrite Hc.
  unfold awaits_submit in Hs. rewrite Hs. simpl. rewrite IH. reflexivity.
Qed.

Lemma sync_directives_run (directives : list NgBindControl) :
  forall form : gmap string BindFormControl,
    (forall dir, In dir directives -> is_Some (form !! control_name dir)) ->
    exists form' directives',
      sync_directives form directives = Ok (form', directives')
      /\ pending_cleared form form'
      /\ List.map control_name directives'
         = List.map control_name directives
      /\ Forall (fun name =>
                   exists c, form' !! name = Some c
                             /\ awaits_submit c = false)
           (List.map control_name directives).
Proof.
  induction directives as [| dir rest IH]; intros form Hdirs.
  - exists form, []. split; [reflexivity |].
    split; [apply pending_cleared_refl |]. split; [reflexivity |].
    constructor.
  - destruct (sync_directive_step form dir (Hdirs dir (or_introl eq_refl)))
      as (form1 & dir1 & Hstep & Hname & Hcl & Hset).
    destruct (IH form1) as (form' & rest' & Hrest & Hcl' & Hnames & Hall).
    { intros d Hd. pose proof (Hdirs d (or_intror Hd)) as [c Hc].
      specialize (Hcl (control_name d)). rewrite Hc in Hcl.
      destruct (form1 !! control_name d); [eauto | contradiction]. }
    exists form', (dir1 :: rest'). simpl. rewrite Hstep. simpl.
    rewrite Hrest. simpl. split; [reflexivity |].
    split; [eapply pending_cleared_trans; eassumption |].
    split; [rewrite Hname, Hnames; reflexivity |].
    constructor; [| exact Hall].
    eapply pending_cleared_settled; eassumption.
Qed.

(** [setUpControl] on a directive with a value accessor: what it
    registers on the accessor and what it leaves alone on the control. *)
Lemma setUpControl_registers (control : BindFormControl)
    (dir : NgBindControl) (accessor : ControlBindValueAccessor) :
  valueAccessor dir = Some accessor ->
  exists control1 dir1 accessor1,
    setUpControl (Some control) dir = Ok (control1, dir1)
    /\ valueAccessor dir1 = Some accessor1
    /\ registered_onChange accessor1 = Some viewChangePipeline
    /\ registered_onTouched accessor1 = Some blurPipeline
    /\ updateOn control1 = updateOn control
    /\ transformer control1 = transformer control
    /\ calls control1
       = (calls control
          ++ registerOnChange
             :: (if setDisabledState accessor
                 then [registerOnDisabledChange] else []))%list.
Proof.
  intros Hacc.
  unfold setUpControl, setUpViewChangePipeline, setUpBlurPipeline,
    setUpModelChangePipeline, on_valueAccessor.
  rewrite Hacc. simpl.
  do 3 eexists. split; [reflexivity |].
  assert (forall (l1 : list BindValidator) (l2 : list AsyncBindValidator)
                 n m d,
            valueAccessor
              (register_async_validator_changes m l2
                 (register_validator_changes n l1 d))
            = valueAccessor d) as Hkeep.
  { assert (forall (l1 : list BindValidator) n d,
              valueAccessor (register_validator_changes n l1 d)
              = valueAccessor d) as H1.
    { induction l1 as [| [f | f []] rest IH]; intros n d; simpl;
        rewrite ?IH; reflexivity. }
    assert (forall (l2 : list AsyncBindValidator) m d,
              valueAccessor (register_async_validator_changes m l2 d)
              = valueAccessor d) as H2.
    { induction l2 as [| [f | f []] rest IH]; intros m d; simpl;
        rewrite ?IH; reflexivity. }
    intros. rewrite H2, H1. reflexivity. }
  rewrite Hkeep. simpl. split; [reflexivity |].
  destruct (registered_after_both
              (accessor_call (writeValue (value (base control))) accessor)
              viewChangePipeline blurPipeline) as [H1 H2].
  split; [exact H1 |]. split; [exact H2 |].
  destruct (setDisabledState accessor); simpl;
    rewrite <- ?app_assoc; repeat split; reflexivity.
Qed.





(** ** Touched and dirty marks *)

(** What the blur handler and [updateControl] mark, whatever the state of
    the control and the directive they are called on. *)
Lemma handlers_mark_touched_and_dirty :
  (forall control dir,
     _pendingTouched (fst (blurHandler control dir)) = true)
  /\ (forall control dir,
        updateOn control = on_submit ->
        blurHandler control dir = (set_pendingTouched true control, dir))
  /\ (forall control dir,
        updateOn control <> on_submit ->
        exists before,
          calls (fst (blurHandler control dir))
          = (calls control ++ before ++ [markAsTouched])%list
          /\ ~ In markAsTouched before)
  /\ (forall control dir,
        exists v,
          calls (fst (updateControl control dir))
          = (calls control
             ++ (if _pendingDirty control then [markAsDirty] else [])
             ++ [setValue v false])%list).
Proof.
  split; [| split; [| split]].
  - intros control dir. rewrite blurHandler_steps. cbv zeta.
    destruct (updates_on on_blur control && _pendingChange control).
    + destruct (updateControl_calls (set_pendingTouched true control) dir)
        as (v & _ & _ & _ & Ht & _).
      destruct (negb (updates_on on_submit control)); exact Ht.
    + destruct (negb (updates_on on_submit control)); reflexivity.
  - intros control dir Hsubmit. rewrite blurHandler_steps.
    unfold updates_on. rewrite Hsubmit. reflexivity.
  - intros control dir Hsubmit. rewrite blurHandler_steps. cbv zeta.
    assert (updates_on on_submit control = false) as ->
      by (unfold updates_on; destruct (updateOn control);
          [reflexivity .. | contradiction]).
    cbn [negb fst].
    destruct (updates_on on_blur control && _pendingChange control).
    + destruct (updateControl_calls (set_pendingTouched true control) dir)
        as (v & Hcalls & _).
      exists ((if _pendingDirty control then [markAsDirty] else [])
              ++ [setValue v false])%list.
      split.
      * change (calls (call markAsTouched ?c))
          with (calls c ++ [markAsTouched])%list.
        rewrite Hcalls. by rewrite <- !app_assoc.
      * destruct (_pendingDirty control); simpl; intros H;
          repeat (destruct H as [H | H]; [discriminate |]); exact H.
    + exists []. split; [reflexivity | intros []].
  - intros control dir.
    destruct (updateControl_calls control dir) as (v & Hcalls & _).
    exists v. exact Hcalls.
Qed.

(** C8. Once [setUpControl] has bound a control, which marks nothing by
    itself, the function it has registered for blur sets
    [_pendingTouched]; when [updateOn] is ['submit'] it does nothing else,
    otherwise the last thing it does is marking the control as touched,
    once, after it has propagated a pending change if the strategy is
    ['blur'].  [updateControl] marks the control as dirty exactly when a
    dirty mark is pending, before it sets the value; this is so on blur,
    and on a change of the view under the ['change'] strategy, where the
    mark has just been set.  [c] and [d] stand for the control and its
    directive as they are when the event arrives. *)
Theorem touched_and_dirty_marks
    (same_reference : JsValue -> JsValue -> bool)
    (control : BindFormControl) (dir : NgBindControl)
    (accessor : ControlBindValueAccessor) :
  valueAccessor dir = Some accessor ->
  exists control1 dir1 accessor1,
    setUpControl (Some control) dir = Ok (control1, dir1)
    /\ valueAccessor dir1 = Some accessor1
    /\ updateOn control1 = updateOn control
    /\ calls control1
       = (calls control
          ++ registerOnChange
             :: (if setDisabledState accessor
                 then [registerOnDisabledChange] else []))%list
    /\ (forall c d,
          exists c' d',
            call_registered_onTouched same_reference accessor1 c d
            = Ok (c', d')
            /\ _pendingTouched c' = true
            /\ (updateOn c = on_submit ->
                (c', d') = (set_pendingTouched true c, d))
            /\ (updateOn c <> on_submit ->
                exists v,
                  calls c'
                  = (calls c
                     ++ (if updates_on on_blur c && _pendingChange c
                         then (if _pendingDirty c then [markAsDirty] else [])
                              ++ [setValue v false]
                         else [])
                     ++ [markAsTouched])%list))
    /\ (forall c d,
          exists v,
            calls (fst (updateControl c d))
            = (calls c
               ++ (if _pendingDirty c then [markAsDirty] else [])
               ++ [setValue v false])%list)
    /\ (forall newValue c d a,
          valueAccessor d = Some a ->
          updateOn c = on_change ->
          exists c' d' v,
            call_registered_onChange same_reference accessor1 newValue c d
            = Ok (c', d')
            /\ calls c' = (calls c ++ [markAsDirty; setValue v false])%list).
Proof.
  intros Hacc.
  destruct (setUpControl_registers control dir accessor Hacc)
    as (control1 & dir1 & accessor1 & Hok & Hacc1 & Hchange & Htouched
        & Hon & _ & Hcalls).
  destruct handlers_mark_touched_and_dirty
    as (Hpending & Hsubmit & _ & Hupdate).
  exists control1, dir1, accessor1.
  split; [exact Hok |]. split; [exact Hacc1 |]. split; [exact Hon |].
  split; [exact Hcalls |]. split; [| split].
  - intros c d. unfold call_registered_onTouched. rewrite Htouched.
    cbn [run_handler].
    exists (fst (blurHandler c d)), (snd (blurHandler c d)).
    split; [destruct (blurHandler c d); reflexivity |].
    split; [apply Hpending |]. split.
    + intros Hs. rewrite (Hsubmit c d Hs). reflexivity.
    + intros Hs. rewrite blurHandler_steps. cbv zeta.
      assert (updates_on on_submit c = false) as ->
        by (unfold updates_on; destruct (updateOn c);
            [reflexivity .. | contradiction]).
      cbn [negb fst].
      destruct (updates_on on_blur c && _pendingChange c).
      * destruct (updateControl_calls (set_pendingTouched true c) d)
          as (v & Hv & _).
        exists v.
        change (calls (call markAsTouched ?x))
          with (calls x ++ [markAsTouched])%list.
        rewrite Hv. by rewrite <- !app_assoc.
      * exists VUndefined. reflexivity.
  - exact Hupdate.
  - intros newValue c d a Ha Hc. unfold call_registered_onChange.
    rewrite Hchange. cbn [run_handler nth].
    destruct (viewChangeHandler_returns same_reference newValue c d a Ha)
      as (buffered & d1 & _ & _ & Hd & Hcs & _ & Hres).
    rewrite Hres. unfold updates_on. rewrite Hc. cbn [BindFormHooks_eqb].
    destruct (updateControl_calls buffered d1) as (v & Hv & _).
    exists (fst (updateControl buffered d1)),
      (snd (updateControl buffered d1)), v.
    split; [destruct (updateControl buffered d1); reflexivity |].
    rewrite Hv, Hd, Hcs. reflexivity.
Qed.

Lemma touched_and_dirty_marks_witness :
  exists control1 dir1 accessor1 c' d' v,
    setUpControl
      (Some (mkBindFormControl (mkControl (VStr "") false false false)
               None None None on_blur (VStr "a") true true false []))
      (mkDir [] "name" (Some (mkAccessor DefaultBindValueAccessor false []))
         [] [] [])
    = Ok (control1, dir1)
    /\ valueAccessor dir1 = Some accessor1
    /\ call_registered_onTouched (fun _ _ => false) accessor1
         (mkBindFormControl (mkControl (VStr "") false false false)
            None None None on_blur (VStr "a") true true false
            [registerOnChange])
         dir1
       = Ok (c', d')
    /\ _pendingTouched c' = true
    /\ calls c' = [registerOnChange; markAsDirty; setValue v false;
                   markAsTouched].
Proof.
  destruct (touched_and_dirty_marks (fun _ _ => false)
              (mkBindFormControl (mkControl (VStr "") false false false)
                 None None None on_blur (VStr "a") true true false [])
              (mkDir [] "name"
                 (Some (mkAccessor DefaultBindValueAccessor false []))
                 [] [] [])
              (mkAccessor DefaultBindValueAccessor false []) eq_refl)
    as (control1 & dir1 & accessor1 & Hok & Hacc1 & _ & _ & Hblur & _).
  destruct (Hblur
              (mkBindFormControl (mkControl (VStr "") false false false)
                 None None None on_blur (VStr "a") true true false
                 [registerOnChange])
              dir1)
    as (c' & d' & Hcall & Hpending & _ & Hmarks).
  destruct Hmarks as (v & Hv); [discriminate |].
  exists control1, dir1, accessor1, c', d', v.
  split; [exact Hok |]. split; [exact Hacc1 |]. split; [exact Hcall |].
  split; [exact Hpending | exact Hv].
Defined.

(** ** Transformers *)

(** What the view-change handler does with a transformer before the
    strategy fires: the transformed view value is the pending value, and is
    written back to the view when it is not strictly equal to the raw
    one. *)
Lemma viewChangeHandler_transforms
    (same_reference : JsValue -> JsValue -> bool)
    (newValue : JsValue) (control : BindFormControl) (dir : NgBindControl)
    (accessor : ControlBindValueAccessor) (fn : BindTransformerFn) :
  valueAccessor dir = Some accessor ->
  transformer control = Some fn ->
  updateOn control <> on_change ->
  exists control' dir',
    viewChangeHandler same_reference newValue control dir
    = Ok (control', dir')
    /\ _pendingValue control' = fn newValue
    /\ valueAccessor dir'
       = Some (if strict_equal same_reference (fn newValue) newValue
               then accessor
               else accessor_call (writeValue (fn newValue)) accessor).
Proof.
  intros Hacc Ht Hon. unfold viewChangeHandler, on_valueAccessor.
  rewrite Ht, Hacc. unfold Function_apply. simpl nth.
  assert (BindFormHooks_eqb (updateOn control) on_change = false) as Hb
    by (destruct (updateOn control); [contradiction | reflexivity ..]).
  destruct (strict_equal same_reference (fn newValue) newValue); simpl;
    rewrite Hb; do 2 eexists; (split; [reflexivity |]);
    (split; [reflexivity |]); [exact Hacc | reflexivity].
Qed.

(** With a transformer, the value that [updateControl] sets on the model
    is the transformer applied to the [_pendingChange] flag. *)
Lemma updateControl_with_transformer (control : BindFormControl)
    (dir : NgBindControl) (fn : BindTransformerFn) :
  transformer control = Some fn ->
  setValue_arguments (calls (fst (updateControl control dir)))
  = (setValue_arguments (calls control)
     ++ [fn (VBool (_pendingChange control))])%list.
Proof.
  intros Ht. unfold updateControl.
  destruct (_pendingDirty control); simpl; rewrite ?Ht; simpl;
    rewrite !setValue_arguments_app; simpl;
    rewrite ?app_nil_r; reflexivity.
Qed.

(** C3, at a failing input.  The transformer turns every string into "A".
    The view reports "a" on a control that updates on change: "A" is
    written back to the view, yet the value set on the model is [true],
    the transformer's image of the [_pendingChange] flag, and not "A". *)
Theorem transformer_receives_pending_flag
    (same_reference : JsValue -> JsValue -> bool) :
  let fn : BindTransformerFn :=
    fun v => match v with
             | VStr _ => VStr "A"
             | _ => v
             end in
  let control :=
    mkBindFormControl (mkControl (VStr "") false false false)
      None None (Some fn) on_change VUndefined false false false [] in
  let dir :=
    mkDir [] "name" (Some (mkAccessor DefaultBindValueAccessor false []))
      [] [] [] in
  transformed control (VStr "a") = VStr "A"
  /\ viewChangeHandler same_reference (VStr "a") control dir
     = Ok (mkBindFormControl (mkControl (VStr "") false false false)
             None None (Some fn) on_change (VBool true) false true false
             [markAsDirty; setValue (VBool true) false],
           mkDir [] "name"
             (Some (mkAccessor DefaultBindValueAccessor false
                      [writeValue (VStr "A")]))
             [] [] [viewToModelUpdate (VBool true)]).
Proof.
  split; reflexivity.
Qed.

(** ** From the model to the view *)

(** What the model-change handler does: without a transformer the new
    value is written to the view; with one, the value written is the
    transformer applied to no argument.  [viewToModelUpdate] follows
    exactly when [emitModelEvent] is set. *)
Lemma modelChangeHandler_writes (newValue : JsValue) (emitModelEvent : bool)
    (control : BindFormControl) (dir : NgBindControl)
    (accessor : ControlBindValueAccessor) :
  valueAccessor dir = Some accessor ->
  let written :=
    match transformer control with
    | Some fn => fn VUndefined
    | None => newValue
    end in
  exists dir',
    modelChangeHandler newValue emitModelEvent control dir
    = Ok (control, dir')
    /\ valueAccessor dir'
       = Some (accessor_call (writeValue written) accessor)
    /\ directive_calls dir'
       = (directive_calls dir
          ++ if emitModelEvent then [viewToModelUpdate written] else [])%list.
Proof.
  intros Hacc written. subst written.
  unfold modelChangeHandler, on_valueAccessor. rewrite Hacc.
  destruct (transformer control) as [fn |]; destruct emitModelEvent; simpl;
    eexists; (split; [reflexivity |]); (split; [reflexivity |]);
    rewrite ?app_nil_r; reflexivity.
Qed.

(** C4, at a failing input.  The transformer turns every string into "A".
    The model reports the new value "a": what is written to the view, and
    passed to [viewToModelUpdate], is [undefined], the transformer's image
    of a missing argument, and not "A". *)
Theorem model_change_loses_new_value :
  let fn : BindTransformerFn :=
    fun v => match v with
             | VStr _ => VStr "A"
             | _ => v
             end in
  let control :=
    mkBindFormControl (mkControl (VStr "a") false false false)
      None None (Some fn) on_change VUndefined false false false [] in
  let dir :=
    mkDir [] "name" (Some (mkAccessor DefaultBindValueAccessor false []))
      [] [] [] in
  transformed control (VStr "a") = VStr "A"
  /\ modelChangeHandler (VStr "a") true control dir
     = Ok (control,
           mkDir [] "name"
             (Some (mkAccessor DefaultBindValueAccessor false
                      [writeValue VUndefined]))
             [] [] [viewToModelUpdate VUndefined]).
Proof.
  split; reflexivity.
Qed.

(** ** The documented examples *)

(** [parseFloat] on numbers, which is all the examples need. *)
Example min_of_two :
  snd (BindValidators.min
         (fun v => match v with VNum n => n | _ => PrimFloat.nan end)
         3%float (mkControl (VNum 2%float) false false false))
  = Some {[ "min" :=
              VObj [("min", VNum 3%float); ("actual", VNum 2%float)] ]}.
Proof. reflexivity. Qed.

Example max_of_sixteen :
  snd (BindValidators.max
         (fun v => match v with VNum n => n | _ => PrimFloat.nan end)
         15%float (mkControl (VNum 16%float) false false false))
  = Some {[ "max" :=
              VObj [("max", VNum 15%float); ("actual", VNum 16%float)] ]}.
Proof. reflexivity. Qed.

Example required_of_empty_string :
  snd (BindValidators.required (mkControl (VStr "") false false false))
  = Some {[ "required" := VBool true ]}.
Proof. reflexivity. Qed.

Example minLength_of_ng :
  snd (BindValidators.minLength (fun _ => PrimFloat.nan) 3%float
         (mkControl (VStr "ng") false false false))
  = Some {[ "minlength" :=
              VObj [("requiredLength", VNum 3%float);
                    ("actualLength", VNum 2%float)] ]}.
Proof. reflexivity. Qed.

Example maxLength_of_Angular :
  snd (BindValidators.maxLength (fun _ => PrimFloat.nan) 5%float
         (mkControl (VStr "Angular") false false false))
  = Some {[ "maxlength" :=
              VObj [("requiredLength", VNum 5%float);
                    ("actualLength", VNum 7%float)] ]}.
Proof. reflexivity. Qed.

Example maxLength_of_empty_array :
  snd (BindValidators.maxLength (fun _ => PrimFloat.nan) 5%float
         (mkControl (VArr []) false false false))
  = None.
Proof. reflexivity. Qed.

Example anchored_examples :
  anchored "[a-zA-Z ]*" = "^[a-zA-Z ]*$"
  /\ anchored "^a" = "^a$"
  /\ anchored "a$" = "^a$"
  /\ anchored "^a$" = "^a$"
  /\ anchored "^" = "^$"
  /\ anchored "$" = "^$".
Proof. repeat split. Qed.

Example throwError_messages :
  @_throwError unit (mkDir [] "" None [] [] []) "Cannot find control with"
  = Throw "Cannot find control with unspecified name attribute"
  /\ @_throwError unit (mkDir ["city"] "" None [] [] [])
       "Cannot find control with"
     = Throw "Cannot find control with name: 'city'"
  /\ @_throwError unit (mkDir ["address"; "city"] "" None [] [] [])
       "Cannot find control with"
     = Throw "Cannot find control with path: 'address -> city'".
Proof. repeat split. Qed.

Example select_custom_over_builtin_over_default :
  selectValueAccessor (mkDir [] "" None [] [] [])
    (accessors_array
       [mkAccessor DefaultBindValueAccessor false [];
        mkAccessor NumberBindValueAccessor false [];
        mkAccessor (CustomClass "Mine") false []])
  = Ok (Some (mkAccessor (CustomClass "Mine") false [])).
Proof. reflexivity. Qed.

Example select_two_builtin_throws :
  selectValueAccessor (mkDir ["age"] "" None [] [] [])
    (accessors_array
       [mkAccessor RangeBindValueAccessor false [];
        mkAccessor NumberBindValueAccessor false []])
  = Throw
      "More than one built-in value accessor matches form control with name: 'age'".
Proof. reflexivity. Qed.

Example select_empty_array_throws :
  selectValueAccessor (mkDir [] "" None [] [] []) (accessors_array [])
  = Throw
      "No valid value accessor for form control with unspecified name attribute".
Proof. reflexivity. Qed.

(** * Further properties *)

Local Open Scope list_scope.

(** ** Removing a directive from a list *)

Lemma indexOf_absent {T : Type} `{EqDecision T} (items : list T) (el : T) :
  el ∉ items -> indexOf items el = (-1)%Z.
Proof.
  induction items as [| x rest IH]; intros Hnot; simpl; [reflexivity |].
  apply not_elem_of_cons in Hnot as [Hne Hrest].
  destruct (decide (x = el)) as [-> |]; [contradiction |].
  rewrite (IH Hrest). reflexivity.
Qed.

Lemma indexOf_first {T : Type} `{EqDecision T} (l1 l2 : list T) (el : T) :
  el ∉ l1 -> indexOf (l1 ++ el :: l2) el = Z.of_nat (List.length l1).
Proof.
  induction l1 as [| x rest IH]; intros Hnot; simpl.
  - destruct (decide (el = el)); [reflexivity | contradiction].
  - apply not_elem_of_cons in Hnot as [Hne Hrest].
    destruct (decide (x = el)) as [-> |]; [contradiction |].
    rewrite (IH Hrest).
    destruct (Z.ltb_spec (Z.of_nat (List.length rest)) 0); lia.
Qed.

(** X1. [removeDir] takes out the first occurrence of the element and
    nothing else; a list that does not hold the element is left as it
    is. *)
Theorem removeDir_first_occurrence {T : Type} `{EqDecision T}
    (l1 l2 : list T) (el : T) :
  el ∉ l1 ->
  removeDir (l1 ++ el :: l2) el = (l1 ++ l2)%list
  /\ removeDir l1 el = l1.
Proof.
  intros Hnot. unfold removeDir. split.
  - rewrite (indexOf_first l1 l2 el Hnot).
    destruct (Z.ltb_spec (-1) (Z.of_nat (List.length l1))); [| lia].
    rewrite Nat2Z.id. unfold splice_one.
    rewrite take_app_length.
    rewrite (cons_middle el l1 l2), (assoc_L (++)).
    rewrite drop_app_length'; [reflexivity |].
    rewrite length_app. simpl. lia.
  - rewrite (indexOf_absent l1 el Hnot). reflexivity.
Qed.

Lemma removeDir_first_occurrence_witness :
  removeDir [1; 2; 3; 2] 2 = [1; 3; 2] /\ removeDir [1] 2 = [1].
Proof.
  apply (removeDir_first_occurrence [1] [3; 2] 2).
  apply not_elem_of_cons. split; [discriminate | apply not_elem_of_nil].
Defined.

(** ** Composing transformers *)

Lemma present_app {A : Type} (l1 l2 : list (option A)) :
  present (l1 ++ l2) = (present l1 ++ present l2)%list.
Proof. unfold present. apply omap_app. Qed.

Lemma run_transformer_compose (l : list (option BindTransformerFn))
    (v : JsValue) :
  run_transformer (BindTransformers.compose (Some l)) v
  = _executeTransformers v (present l).
Proof.
  unfold BindTransformers.compose.
  destruct (present l) as [| t rest]; reflexivity.
Qed.

(** X2. [BindTransformers.compose] skips absent entries and runs the
    transformers from left to right: the composite of a concatenation is
    the composite of the second list after that of the first, a composite
    of nothing being [null] and leaving the value alone. *)
Theorem transformers_compose_in_order
    (l1 l2 : list (option BindTransformerFn)) (v : JsValue) :
  BindTransformers.compose None = None
  /\ (BindTransformers.compose (Some l1) = None <-> present l1 = [])
  /\ run_transformer (BindTransformers.compose (Some l1)) v
     = fold_left (fun value fn => fn value) (present l1) v
  /\ run_transformer (BindTransformers.compose (Some (l1 ++ l2)%list)) v
     = run_transformer (BindTransformers.compose (Some l2))
         (run_transformer (BindTransformers.compose (Some l1)) v)
  /\ composeTransformers (Some (l1 ++ l2)%list)
     = BindTransformers.compose (Some (l1 ++ l2)%list).
Proof.
  split; [reflexivity |]. split; [| split; [| split]].
  - unfold BindTransformers.compose.
    destruct (present l1); simpl; split; intros; congruence.
  - apply run_transformer_compose.
  - rewrite !run_transformer_compose, present_app.
    unfold _executeTransformers. apply fold_left_app.
  - reflexivity.
Qed.

(** ** Composing composed validators *)

Lemma _executeValidators_app (control : AbstractBindControl)
    (l1 l2 : list BindValidatorFn) :
  _executeValidators control (l1 ++ l2)
  = (let '(control1, errs1) := _executeValidators control l1 in
     let '(control2, errs2) := _executeValidators control1 l2 in
     (control2, (errs1 ++ errs2)%list)).
Proof.
  revert control. induction l1 as [| v rest IH]; intros control; simpl.
  - destruct (_executeValidators control l2). reflexivity.
  - destruct (v control) as [control1 r]. rewrite IH.
    destruct (_executeValidators control1 rest) as [control2 errs1].
    destruct (_executeValidators control2 l2). reflexivity.
Qed.

Lemma mergeErrors_app (errs1 errs2 : list (option ValidationBindErrors)) :
  _mergeErrors [_mergeErrors errs1; _mergeErrors errs2]
  = _mergeErrors (errs1 ++ errs2).
Proof.
  rewrite (_mergeErrors_union [_; _]), (_mergeErrors_union (_ ++ _)).
  simpl union_of_errors.
  rewrite !default_mergeErrors, union_of_errors_app, (left_id_L ∅ (∪)).
  reflexivity.
Qed.

Lemma run_validator_compose (l : list (option BindValidatorFn))
    (control : AbstractBindControl) :
  run_validator (BindValidators.compose (Some l)) control
  = (let '(control', errs) := _executeValidators control (present l) in
     (control', _mergeErrors errs)).
Proof.
  unfold BindValidators.compose.
  destruct (present l) as [| v rest]; reflexivity.
Qed.

(** X3. Composition of validators nests: composing two composites gives,
    on every control, what composing the concatenation of their lists
    gives, and the one is [null] exactly when the other is. *)
Theorem compose_of_composites (a b : list (option BindValidatorFn))
    (control : AbstractBindControl) :
  run_validator
    (BindValidators.compose
       (Some [BindValidators.compose (Some a);
              BindValidators.compose (Some b)])) control
  = run_validator (BindValidators.compose (Some (a ++ b)%list)) control
  /\ (BindValidators.compose
        (Some [BindValidators.compose (Some a);
               BindValidators.compose (Some b)]) = None
      <-> BindValidators.compose (Some (a ++ b)%list) = None).
Proof.
  split.
  - rewrite (run_validator_compose (a ++ b)), present_app,
      _executeValidators_app.
    rewrite run_validator_compose.
    pose proof (run_validator_compose a) as Ha.
    pose proof (run_validator_compose b) as Hb.
    unfold BindValidators.compose in *.
    destruct (present a) as [| va ra] eqn:Epa;
      destruct (present b) as [| vb rb] eqn:Epb;
      cbn -[_mergeErrors _executeValidators] in *.
    + reflexivity.
    + cbn -[_mergeErrors]. specialize (Hb control).
      cbn -[_mergeErrors] in Hb.
      destruct (vb control) as [c1 r1].
      destruct (_executeValidators c1 rb) as [c2 errs].
      rewrite mergeErrors_single. reflexivity.
    + cbn -[_mergeErrors].
      destruct (va control) as [c1 r1].
      destruct (_executeValidators c1 ra) as [c2 errs].
      rewrite mergeErrors_single, app_nil_r. reflexivity.
    + cbn -[_mergeErrors].
      destruct (va control) as [c1 r1].
      destruct (_executeValidators c1 ra) as [c2 errs1].
      destruct (vb c2) as [c3 r3].
      destruct (_executeValidators c3 rb) as [c4 errs2].
      rewrite (mergeErrors_app (r1 :: errs1) (r3 :: errs2)). reflexivity.
  - unfold BindValidators.compose. rewrite present_app.
    destruct (present a), (present b); simpl; split; intros; congruence.
Qed.

(** ** The registry of radio buttons *)

Lemma remove_from_suffix
    (accessor a' : RadioControlBindValueAccessor.instance)
    (c : RadioControlBindValueAccessor.NgControl)
    (l1 l2 : RadioControlRegistry.registry) (k : nat) :
  RadioControlBindValueAccessor.ref a'
  = RadioControlBindValueAccessor.ref accessor ->
  Forall (fun entry =>
            RadioControlBindValueAccessor.ref (snd entry)
            <> RadioControlBindValueAccessor.ref accessor) l2 ->
  k <= List.length l2 ->
  RadioControlRegistry.remove_from (S (List.length l1 + k)) accessor
    (l1 ++ (c, a') :: l2)%list
  = (l1 ++ l2)%list.
Proof.
  intros Href Hl2. induction k as [| k IH]; intros Hk.
  - rewrite Nat.add_0_r. simpl.
    rewrite list_lookup_middle by reflexivity.
    rewrite Href, Nat.eqb_refl, take_app_length.
    rewrite (cons_middle (c, a') l1 l2), (assoc_L (++)).
    rewrite drop_app_length'; [reflexivity |].
    rewrite length_app. simpl. lia.
  - cbn [RadioControlRegistry.remove_from].
    assert (exists entry, l2 !! k = Some entry) as [[c2 a2] Hentry]
      by (apply lookup_lt_is_Some; lia).
    assert ((l1 ++ (c, a') :: l2) !! (List.length l1 + S k)
            = Some (c2, a2)) as Hlook.
    { rewrite lookup_app_r by lia.
      replace (List.length l1 + S k - List.length l1) with (S k) by lia.
      exact Hentry. }
    rewrite Hlook.
    assert (RadioControlBindValueAccessor.ref a2
            <> RadioControlBindValueAccessor.ref accessor) as Hne.
    { rewrite Forall_forall in Hl2.
      apply (Hl2 (c2, a2)).
      eapply list_elem_of_lookup_2. exact Hentry. }
    apply Nat.eqb_neq in Hne. rewrite Hne.
    rewrite Nat.add_succ_r. apply IH. lia.
Qed.

(** X4. [RadioControlRegistry.remove] takes out the last entry of the
    accessor and nothing else; in particular a [remove] after an [add] of
    the same accessor gives the registry back, and so does [ngOnDestroy]
    after a successful [ngOnInit]. *)
Theorem registry_remove_last_entry
    (accessor a' : RadioControlBindValueAccessor.instance)
    (c : RadioControlBindValueAccessor.NgControl)
    (l1 l2 : RadioControlRegistry.registry) :
  RadioControlBindValueAccessor.ref a'
  = RadioControlBindValueAccessor.ref accessor ->
  Forall (fun entry =>
            RadioControlBindValueAccessor.ref (snd entry)
            <> RadioControlBindValueAccessor.ref accessor) l2 ->
  RadioControlRegistry.remove accessor (l1 ++ (c, a') :: l2)%list
  = (l1 ++ l2)%list
  /\ RadioControlRegistry.remove accessor
       (RadioControlRegistry.add c accessor l1) = l1
  /\ (forall this registry,
        Radio_ngOnInit c accessor l1 = Ok (this, registry) ->
        Radio_ngOnDestroy this registry = l1).
Proof.
  intros Href Hl2.
  assert (forall (x : RadioControlBindValueAccessor.instance) c0
                 (l : RadioControlRegistry.registry),
            RadioControlRegistry.remove x (RadioControlRegistry.add c0 x l)
            = l) as Hround.
  { intros x c0 l.
    unfold RadioControlRegistry.remove, RadioControlRegistry.add.
    rewrite length_app. simpl List.length.
    replace (List.length l + 1) with (S (List.length l + 0)) by lia.
    rewrite (remove_from_suffix x x c0 l [] 0);
      [apply app_nil_r | reflexivity | constructor | simpl; lia]. }
  split; [| split].
  - unfold RadioControlRegistry.remove.
    rewrite length_app. simpl List.length.
    replace (List.length l1 + S (List.length l2))
      with (S (List.length l1 + List.length l2)) by lia.
    apply remove_from_suffix; [exact Href | exact Hl2 | lia].
  - apply Hround.
  - intros this registry Hinit. unfold Radio_ngOnInit in Hinit.
    destruct (RadioControlBindValueAccessor._checkName _) as [r |];
      simpl in Hinit; [| discriminate].
    injection Hinit as <- <-. apply Hround.
Qed.

Lemma registry_remove_last_entry_witness :
  RadioControlRegistry.remove
    (RadioControlBindValueAccessor.mkInstance 7
       (RadioControlBindValueAccessor.mkNgControl true (Some 1))
       (Some "food") None (VStr "pizza") None None)
    [(RadioControlBindValueAccessor.mkNgControl true (Some 1),
      RadioControlBindValueAccessor.mkInstance 7
        (RadioControlBindValueAccessor.mkNgControl true (Some 1))
        (Some "food") None (VStr "pizza") None None);
     (RadioControlBindValueAccessor.mkNgControl true (Some 1),
      RadioControlBindValueAccessor.mkInstance 8
        (RadioControlBindValueAccessor.mkNgControl true (Some 1))
        (Some "food") None (VStr "pasta") None None)]
  = [(RadioControlBindValueAccessor.mkNgControl true (Some 1),
      RadioControlBindValueAccessor.mkInstance 8
        (RadioControlBindValueAccessor.mkNgControl true (Some 1))
        (Some "food") None (VStr "pasta") None None)].
Proof.
  apply (proj1 (registry_remove_last_entry
                  (RadioControlBindValueAccessor.mkInstance 7
                     (RadioControlBindValueAccessor.mkNgControl true (Some 1))
                     (Some "food") None (VStr "pizza") None None)
                  (RadioControlBindValueAccessor.mkInstance 7
                     (RadioControlBindValueAccessor.mkNgControl true (Some 1))
                     (Some "food") None (VStr "pizza") None None)
                  (RadioControlBindValueAccessor.mkNgControl true (Some 1))
                  []
                  [(RadioControlBindValueAccessor.mkNgControl true (Some 1),
                    RadioControlBindValueAccessor.mkInstance 8
                      (RadioControlBindValueAccessor.mkNgControl true (Some 1))
                      (Some "food") None (VStr "pasta") None None)]
                  eq_refl
                  ltac:(repeat constructor; simpl; lia))).
Defined.

Lemma lookup_List_map {A B : Type} (f : A -> B) (l : list A) (i : nat) :
  List.map f l !! i = f <$> (l !! i).
Proof.
  revert i. induction l as [| x rest IH]; intros [| i]; simpl;
    try reflexivity.
  apply IH.
Qed.

(** X5. [RadioControlRegistry.select] keeps the registry's entries in
    place.  An entry belongs to the accessor's group when its directive
    has a control, its directive's parent is the parent of the accessor's
    directive, and its radio's name is the accessor's.  A radio of the
    group other than the accessor itself has its [_state] and the
    [checked] property of its element set to whether the accessor's value
    is strictly equal to its own, so that it ends up unchecked when the
    values differ.  Every other radio is left as it is: one whose
    directive has no control, one with another parent, one with another
    name, and the accessor itself. *)
Theorem registry_select_unchecks_group
    (same_reference : JsValue -> JsValue -> bool)
    (accessor : RadioControlBindValueAccessor.instance)
    (_accessors : RadioControlRegistry.registry) :
  List.length
    (RadioControlRegistry.select same_reference accessor _accessors)
  = List.length _accessors
  /\ forall i c a,
       _accessors !! i = Some (c, a) ->
       exists a',
         RadioControlRegistry.select same_reference accessor _accessors !! i
         = Some (c, a')
         /\ (RadioControlBindValueAccessor.control c = true ->
             RadioControlBindValueAccessor._parent c
             = RadioControlBindValueAccessor._parent
                 (RadioControlBindValueAccessor._control accessor) ->
             RadioControlBindValueAccessor.name a
             = RadioControlBindValueAccessor.name accessor ->
             RadioControlBindValueAccessor.ref a
             <> RadioControlBindValueAccessor.ref accessor ->
             let same :=
               strict_equal same_reference
                 (RadioControlBindValueAccessor.value accessor)
                 (RadioControlBindValueAccessor.value a) in
             a' = RadioControlBindValueAccessor.mkInstance
                    (RadioControlBindValueAccessor.ref a)
                    (RadioControlBindValueAccessor._control a)
                    (RadioControlBindValueAccessor.name a)
                    (RadioControlBindValueAccessor.formBindControlName a)
                    (RadioControlBindValueAccessor.value a)
                    (Some same) (Some same))
         /\ (RadioControlBindValueAccessor.control c = false
             \/ RadioControlBindValueAccessor._parent c
                <> RadioControlBindValueAccessor._parent
                     (RadioControlBindValueAccessor._control accessor)
             \/ RadioControlBindValueAccessor.name a
                <> RadioControlBindValueAccessor.name accessor
             \/ RadioControlBindValueAccessor.ref a
                = RadioControlBindValueAccessor.ref accessor ->
             a' = a).
Proof.
  unfold RadioControlRegistry.select. split.
  - apply length_map.
  - intros i c a Hentry. rewrite lookup_List_map, Hentry. simpl.
    unfold RadioControlRegistry._isSameGroup. simpl.
    destruct (RadioControlBindValueAccessor.control c) eqn:Hc; simpl.
    + destruct (bool_decide
                  (RadioControlBindValueAccessor._parent c
                   = RadioControlBindValueAccessor._parent
                       (RadioControlBindValueAccessor._control accessor)))
        eqn:Hp; simpl.
      * destruct (bool_decide
                    (RadioControlBindValueAccessor.name a
                     = RadioControlBindValueAccessor.name accessor))
          eqn:Hn; simpl.
        -- destruct (Nat.eqb (RadioControlBindValueAccessor.ref a)
                       (RadioControlBindValueAccessor.ref accessor))
             eqn:Hr; simpl.
           ++ eexists. split; [reflexivity |]. split.
              ** intros _ _ _ Hne. apply Nat.eqb_eq in Hr. contradiction.
              ** intros _. reflexivity.
           ++ eexists. split; [reflexivity |]. split.
              ** intros _ _ _ _. reflexivity.
              ** apply bool_decide_eq_true in Hp, Hn.
                 apply Nat.eqb_neq in Hr.
                 intros [H | [H | [H | H]]];
                   [discriminate | contradiction ..].
        -- apply bool_decide_eq_false in Hn.
           eexists. split; [reflexivity |]. split.
           ++ intros _ _ H _. contradiction.
           ++ intros _. reflexivity.
      * apply bool_decide_eq_false in Hp.
        eexists. split; [reflexivity |]. split.
        -- intros _ H _ _. contradiction.
        -- intros _. reflexivity.
    + eexists. split; [reflexivity |]. split.
      * intros H. discriminate.
      * intros _. reflexivity.
Qed.

(** X6. [_checkName] throws exactly when the radio has a [name] and a
    [formBindControlName] that differ.  Otherwise it returns: a radio with
    a [formBindControlName] then has it as its [name], a radio without one
    keeps its [name], and nothing else has changed. *)
Theorem checkName_outcome (this : RadioControlBindValueAccessor.instance) :
  let clash :=
    string_truthy (RadioControlBindValueAccessor.name this) = true
    /\ string_truthy
         (RadioControlBindValueAccessor.formBindControlName this) = true
    /\ RadioControlBindValueAccessor.name this
       <> RadioControlBindValueAccessor.formBindControlName this in
  (clash ->
   RadioControlBindValueAccessor._checkName this
   = Throw RadioControlBindValueAccessor.name_error_message)
  /\ (~ clash ->
      RadioControlBindValueAccessor._checkName this
      = Ok (RadioControlBindValueAccessor.mkInstance
              (RadioControlBindValueAccessor.ref this)
              (RadioControlBindValueAccessor._control this)
              (if string_truthy
                    (RadioControlBindValueAccessor.formBindControlName this)
               then RadioControlBindValueAccessor.formBindControlName this
               else RadioControlBindValueAccessor.name this)
              (RadioControlBindValueAccessor.formBindControlName this)
              (RadioControlBindValueAccessor.value this)
              (RadioControlBindValueAccessor._state this)
              (RadioControlBindValueAccessor.element_checked this)))
  /\ ((exists message,
         RadioControlBindValueAccessor._checkName this = Throw message)
      <-> clash).
Proof.
  destruct this as [r c n f v s e].
  unfold RadioControlBindValueAccessor._checkName. simpl.
  destruct (string_truthy n) eqn:Hn, (string_truthy f) eqn:Hf; simpl.
  - destruct (bool_decide (n = f)) eqn:Heq; simpl.
    + apply bool_decide_eq_true in Heq. subst f.
      split; [intros (_ & _ & H); contradiction |].
      split; [intros _; reflexivity |].
      split; [intros [m H]; discriminate | intros (_ & _ & H); contradiction].
    + apply bool_decide_eq_false in Heq.
      split; [intros _; reflexivity |].
      split; [intros H; exfalso; apply H; auto |].
      split; [intros _; auto | intros _; eexists; reflexivity].
  - split; [intros (_ & H & _); discriminate |].
    split; [intros _; reflexivity |].
    split; [intros [m H]; discriminate | intros (_ & H & _); discriminate].
  - split; [intros (H & _); discriminate |].
    split; [intros _; reflexivity |].
    split; [intros [m H]; discriminate | intros (H & _); discriminate].
  - split; [intros (H & _); discriminate |].
    split; [intros _; reflexivity |].
    split; [intros [m H]; discriminate | intros (H & _); discriminate].
Qed.

(** ** Text input and composition *)

Lemma handle_events_app (e1 e2 : list InputEvent)
    (a : DefaultBindValueAccessor.instance) :
  handle_events (e1 ++ e2) a = handle_events e2 (handle_events e1 a).
Proof. unfold handle_events. apply fold_left_app. Qed.

Lemma inputs_while_composing (values : list JsValue)
    (a : DefaultBindValueAccessor.instance) :
  DefaultBindValueAccessor._compositionMode a = true ->
  DefaultBindValueAccessor._composing a = true ->
  handle_events (List.map input_event values) a = a.
Proof.
  intros Hmode Hcomposing. induction values as [| v rest IH];
    [reflexivity |].
  simpl. unfold handle_events in *. simpl.
  unfold DefaultBindValueAccessor._handleInput.
  rewrite Hmode, Hcomposing. simpl. exact IH.
Qed.

Lemma events_without_composition_mode (events : list InputEvent) :
  forall a : DefaultBindValueAccessor.instance,
    DefaultBindValueAccessor._compositionMode a = false ->
    DefaultBindValueAccessor.onChange_calls (handle_events events a)
    = DefaultBindValueAccessor.onChange_calls a ++ input_values events.
Proof.
  induction events as [| e rest IH]; intros a Hmode.
  - simpl. by rewrite app_nil_r.
  - unfold handle_events in *. simpl fold_left.
    rewrite IH.
    + destruct e as [v | | v]; simpl;
        unfold DefaultBindValueAccessor._handleInput,
          DefaultBindValueAccessor._compositionEnd; simpl;
        rewrite ?Hmode; simpl; rewrite <- ?app_assoc; reflexivity.
    + destruct e as [v | | v]; simpl;
        unfold DefaultBindValueAccessor._handleInput,
          DefaultBindValueAccessor._compositionEnd; simpl;
        rewrite ?Hmode; simpl; first [exact Hmode | reflexivity].
Qed.

(** X7. In composition mode the [DefaultBindValueAccessor] holds back the
    inputs made between [compositionstart] and [compositionend] and
    reports the composed value once, at the end.  Out of composition mode
    every input is reported, in order, and the composition events report
    nothing.  When the mode is not injected it is on except on Android. *)
Theorem composition_buffers_input
    (a : DefaultBindValueAccessor.instance) (values : list JsValue)
    (v : JsValue) (events : list InputEvent) :
  (DefaultBindValueAccessor._compositionMode a = true ->
   let a' :=
     handle_events
       (compositionstart_event :: List.map input_event values
        ++ [compositionend_event v]) a in
   DefaultBindValueAccessor.onChange_calls a'
   = DefaultBindValueAccessor.onChange_calls a ++ [v]
   /\ DefaultBindValueAccessor._composing a' = false)
  /\ (DefaultBindValueAccessor._compositionMode a = false ->
      DefaultBindValueAccessor.onChange_calls (handle_events events a)
      = DefaultBindValueAccessor.onChange_calls a ++ input_values events)
  /\ (forall isAndroid,
        DefaultBindValueAccessor._compositionMode
          (DefaultBindValueAccessor.new isAndroid None)
        = negb isAndroid).
Proof.
  split; [| split].
  - intros Hmode a'. subst a'.
    change (compositionstart_event
            :: List.map input_event values ++ [compositionend_event v])
      with ([compositionstart_event]
            ++ List.map input_event values ++ [compositionend_event v]).
    rewrite !handle_events_app.
    rewrite (inputs_while_composing values); [| exact Hmode | reflexivity].
    unfold handle_events. simpl.
    unfold DefaultBindValueAccessor._compositionEnd. simpl.
    rewrite Hmode. simpl. split; reflexivity.
  - apply events_without_composition_mode.
  - reflexivity.
Qed.

Lemma composition_buffers_input_witness :
  DefaultBindValueAccessor.onChange_calls
    (handle_events
       [compositionstart_event; input_event (VStr "k");
        input_event (VStr "ka"); compositionend_event (VStr "kanji")]
       (DefaultBindValueAccessor.new false None))
  = [VStr "kanji"].
Proof.
  apply (proj1 (composition_buffers_input
                  (DefaultBindValueAccessor.new false None)
                  [VStr "k"; VStr "ka"] (VStr "kanji") [])).
  reflexivity.
Defined.

(** ** Number and range inputs *)

(** X8. What a number or range input reports to the model is [null] (for
    the empty string) or a number, never a string; a number input shows
    [null] and [undefined] as the empty string, which it reads back as
    [null]; a range input always writes a number. *)
Theorem number_inputs_report_numbers
    (same_reference : JsValue -> JsValue -> bool)
    (parseFloat : JsValue -> number) (v : JsValue) :
  (NumberBindValueAccessor.onChange same_reference parseFloat v
   = (if match v with VStr s => String.eqb s "" | _ => false end
      then VNull else VNum (parseFloat v)))
  /\ RangeBindValueAccessor.onChange same_reference parseFloat v
     = NumberBindValueAccessor.onChange same_reference parseFloat v
  /\ (forall s,
        NumberBindValueAccessor.onChange same_reference parseFloat v
        <> VStr s)
  /\ (is_nullish v = true ->
      NumberBindValueAccessor.onChange same_reference parseFloat
        (NumberBindValueAccessor.writeValue v) = VNull)
  /\ (is_nullish v = false -> NumberBindValueAccessor.writeValue v = v)
  /\ exists n, RangeBindValueAccessor.writeValue parseFloat v = VNum n.
Proof.
  unfold NumberBindValueAccessor.onChange, RangeBindValueAccessor.onChange,
    NumberBindValueAccessor.writeValue, RangeBindValueAccessor.writeValue.
  split; [| split; [| split; [| split; [| split]]]].
  - destruct v; reflexivity.
  - reflexivity.
  - intros s. destruct (strict_equal _ _ _); discriminate.
  - intros ->. reflexivity.
  - intros ->. reflexivity.
  - eauto.
Qed.

Lemma number_inputs_report_numbers_witness :
  NumberBindValueAccessor.onChange (fun _ _ => false)
    (fun _ => PrimFloat.nan) (NumberBindValueAccessor.writeValue VNull)
  = VNull.
Proof.
  apply (proj1 (proj2 (proj2 (proj2
           (number_inputs_report_numbers (fun _ _ => false)
              (fun _ => PrimFloat.nan) VNull))))).
  reflexivity.
Defined.

(** ** Validator directives *)

Lemma String_eqb_false_iff (s t : string) :
  String.eqb s t = false <-> s <> t.
Proof.
  split.
  - intros H ->. rewrite String.eqb_refl in H. discriminate.
  - intros H. destruct (String.eqb s t) eqn:E; [| reflexivity].
    apply String.eqb_eq in E. contradiction.
Qed.

(** X9. Setting [required] on a [RequiredValidator] (or a
    [CheckboxRequiredValidator]) to [null], [undefined], [false] or
    ["false"] switches it off: [validate] then returns [null] on every
    control.  Any other boolean or string, the empty string of a bare
    attribute included, switches it on: [validate] is then
    [BindValidators.required] (for a checkbox, [requiredTrue]).  Each
    setting calls the registered change callback once. *)
Theorem required_attribute_values
    (same_reference : JsValue -> JsValue -> bool)
    (host_ToString : JsValue -> string)
    (v : JsValue) (this : RequiredValidator.instance)
    (control : AbstractBindControl) :
  boolean_or_string v ->
  let this' :=
    RequiredValidator.set_required same_reference host_ToString v this in
  let off :=
    v = VUndefined \/ v = VNull \/ v = VBool false \/ v = VStr "false" in
  (RequiredValidator._required this' = false <-> off)
  /\ (off ->
      RequiredValidator.validate this' control = (control, None)
      /\ CheckboxRequiredValidator.validate this' control = (control, None))
  /\ (~ off ->
      RequiredValidator.validate this' control
      = BindValidators.required control
      /\ CheckboxRequiredValidator.validate this' control
         = BindValidators.requiredTrue control)
  /\ RequiredValidator._onChange_calls this'
     = (if RequiredValidator._onChange this
        then S (RequiredValidator._onChange_calls this)
        else RequiredValidator._onChange_calls this)
  /\ RequiredValidator._onChange this' = RequiredValidator._onChange this.
Proof.
  intros Htype this' off.
  assert (RequiredValidator._required this' = false <-> off) as Hoff.
  { subst this' off. unfold RequiredValidator.set_required. simpl.
    destruct v as [| | b | n | s | items | props]; simpl in *;
      try contradiction.
    - split; [auto | reflexivity].
    - split; [auto | reflexivity].
    - destruct b; simpl.
      + split; [discriminate |].
        intros [H | [H | [H | H]]]; discriminate.
      + split; [auto | reflexivity].
    - rewrite negb_false_iff. split.
      + intros H. apply String.eqb_eq in H. subst s. auto.
      + intros [H | [H | [H | H]]]; try discriminate.
        injection H as ->. reflexivity. }
  split; [exact Hoff |].
  unfold RequiredValidator.validate, CheckboxRequiredValidator.validate.
  split; [| split; [| split]].
  - intros H. apply Hoff in H. rewrite H. split; reflexivity.
  - intros H. destruct (RequiredValidator._required this') eqn:E.
    + split; reflexivity.
    + exfalso. apply H, Hoff. reflexivity.
  - reflexivity.
  - reflexivity.
Qed.

Lemma required_attribute_values_witness :
  RequiredValidator.validate
    (RequiredValidator.set_required (fun _ _ => false) (fun _ => "")
       (VStr "") (RequiredValidator.mkInstance false false 0))
    (mkControl (VStr "") false false false)
  = (mkControl (VStr "") false false false,
     Some {[ "required" := VBool true ]}).
Proof.
  apply (proj1 (proj1 (proj2 (proj2
           (required_attribute_values (fun _ _ => false) (fun _ => "")
              (VStr "") (RequiredValidator.mkInstance false false 0)
              (mkControl (VStr "") false false false) I)))
           ltac:(intros [H | [H | [H | H]]]; discriminate))).
Defined.

(** X10. Setting [email] on an [EmailValidator] switches it on exactly for
    the empty string, [true] and ["true"]: [validate] is then
    [BindValidators.email]; for every other value it returns [null] on
    every control.  Each setting calls the registered change callback
    once. *)
Theorem email_attribute_values
    (same_reference : JsValue -> JsValue -> bool)
    (regexp_test : RegExp -> JsValue -> bool)
    (v : JsValue) (this : EmailValidator.instance)
    (control : AbstractBindControl) :
  let this' := EmailValidator.set_email same_reference v this in
  let on := v = VStr "" \/ v = VBool true \/ v = VStr "true" in
  (EmailValidator._enabled this' = true <-> on)
  /\ (on ->
      EmailValidator.validate regexp_test this' control
      = BindValidators.email regexp_test control)
  /\ (~ on ->
      EmailValidator.validate regexp_test this' control = (control, None))
  /\ EmailValidator._onChange_calls this'
     = (if EmailValidator._onChange this
        then S (EmailValidator._onChange_calls this)
        else EmailValidator._onChange_calls this).
Proof.
  intros this' on.
  assert (EmailValidator._enabled this' = true <-> on) as Hon.
  { subst this' on. unfold EmailValidator.set_email. simpl.
    destruct v as [| | b | n | s | items | props]; simpl;
      try (split; [discriminate |];
           intros [H | [H | H]]; discriminate).
    - destruct b; simpl.
      + split; auto.
      + split; [discriminate | intros [H | [H | H]]; discriminate].
    - rewrite orb_false_r, orb_true_iff, !String.eqb_eq. split.
      + intros [-> | ->]; auto.
      + intros [H | [H | H]]; try discriminate;
          injection H as ->; auto. }
  split; [exact Hon |].
  unfold EmailValidator.validate. split; [| split].
  - intros H. apply Hon in H. rewrite H. reflexivity.
  - intros H. destruct (EmailValidator._enabled this') eqn:E.
    + exfalso. apply H, Hon. reflexivity.
    + reflexivity.
  - reflexivity.
Qed.

Lemma email_attribute_values_witness :
  EmailValidator.validate (fun _ _ => false)
    (EmailValidator.set_email (fun _ _ => false) (VStr "false")
       (EmailValidator.mkInstance true false 0))
    (mkControl (VStr "bad@") false false false)
  = (mkControl (VStr "bad@") false false false, None).
Proof.
  apply (proj1 (proj2 (proj2
           (email_attribute_values (fun _ _ => false) (fun _ _ => false)
              (VStr "false") (EmailValidator.mkInstance true false 0)
              (mkControl (VStr "bad@") false false false))))).
  intros [H | [H | H]]; discriminate.
Defined.

(** ** The ngModel deprecation warning *)

Lemma warn_silent (isDevMode : bool) (name : string) (st : WarningState)
    (i : nat) (warningConfig : option string) :
  snd (_ngModelWarning isDevMode name (sent_once st)
         (default false (sent st !! i)) warningConfig) = [] ->
  warned (warn isDevMode name st (i, warningConfig)) = warned st
  /\ sent_once (warn isDevMode name st (i, warningConfig)) = sent_once st
  /\ forall j,
       sent st !! j = Some true ->
       sent (warn isDevMode name st (i, warningConfig)) !! j = Some true.
Proof.
  unfold warn, _ngModelWarning.
  destruct (negb isDevMode || bool_decide (warningConfig = Some "never"));
    [| destruct (_ || _)]; simpl; intros H; try discriminate;
    (split; [apply app_nil_r |]); (split; [reflexivity |]);
    intros j Hj; rewrite lookup_insert; case_decide; subst;
    try rewrite Hj; reflexivity.
Qed.

Lemma warn_keeps_invariant (isDevMode : bool) (name : string)
    (st : WarningState) (call : nat * option string) :
  warning_invariant st -> warning_invariant (warn isDevMode name st call).
Proof.
  intros (Hsent & Honce & Hnodup & Hcount). destruct call as [i cfg].
  destruct (snd (_ngModelWarning isDevMode name (sent_once st)
                   (default false (sent st !! i)) cfg)) eqn:Hmsg.
  - destruct (warn_silent isDevMode name st i cfg Hmsg)
      as (Hw & Ho & Hs).
    unfold warning_invariant. rewrite Hw, Ho.
    repeat split; auto.
  - assert (warn isDevMode name st (i, cfg)
            = mkWarningState true (<[i := true]> (sent st))
                (warned st ++ [(i, cfg)])
            /\ (once_per_class cfg = true /\ sent_once st = false
                \/ once_per_class cfg = false
                   /\ default false (sent st !! i) = false))
      as [Hstate Hwhy].
    { revert Hmsg. unfold warn, _ngModelWarning, once_per_class.
      destruct (negb isDevMode || bool_decide (cfg = Some "never"));
        [discriminate |].
      destruct (bool_decide (cfg = None) || bool_decide (cfg = Some "once"))
        eqn:E1; simpl.
      - destruct (sent_once st) eqn:E2; simpl.
        + destruct (bool_decide (cfg = Some "always")) eqn:E3; simpl;
            [| discriminate].
          apply bool_decide_eq_true in E3. subst cfg. discriminate.
        + intros _. split; [reflexivity | left; auto].
      - destruct (bool_decide (cfg = Some "always")
                  && negb (default false (sent st !! i))) eqn:E3; simpl;
          [| discriminate].
        intros _. split; [reflexivity |]. right. split; [reflexivity |].
        apply andb_true_iff in E3 as [_ E3].
        apply negb_true_iff in E3. exact E3. }
    rewrite Hstate. clear Hstate Hmsg.
    assert (i ∉ List.map fst (warned st)) as Hfresh.
    { intros Hin. apply list_elem_of_In, in_map_iff in Hin
        as ([j cfg'] & Hj & Hin). simpl in Hj. subst j.
      apply list_elem_of_In in Hin.
      pose proof (Hsent _ Hin) as Htrue. simpl in Htrue.
      destruct Hwhy as [[_ Hno] | [_ Hno]].
      - rewrite Honce in Hno; [discriminate |].
        intros Hnil. rewrite Hnil in Hin. apply elem_of_nil in Hin.
        exact Hin.
      - rewrite Htrue in Hno. discriminate. }
    unfold warning_invariant. simpl. repeat split.
    + intros call Hin. apply elem_of_app in Hin as [Hin | Hin].
      * rewrite lookup_insert. case_decide; [reflexivity |].
        apply Hsent, Hin.
      * apply list_elem_of_singleton in Hin. subst call. simpl.
        apply lookup_insert_eq.
    + rewrite map_app. simpl. apply NoDup_app. split; [exact Hnodup |].
      split; [| apply NoDup_singleton].
      intros x Hx Hx'. apply list_elem_of_singleton in Hx'. subst x.
      contradiction.
    + rewrite List.filter_app, length_app. simpl.
      destruct Hwhy as [[Hcfg Hno] | [Hcfg _]]; rewrite Hcfg; simpl.
      * destruct (warned st) as [| w ws]; [simpl; lia |].
        rewrite Honce in Hno; [discriminate | discriminate].
      * lia.
Qed.

(** X11. Over any sequence of calls of [_ngModelWarning] for the
    instances of one directive class, starting with no flag set: no
    instance is warned about twice; the calls configured with [null] or
    ['once'] warn at most once in all; and outside dev mode nothing ever
    warns. *)
Theorem ngModelWarning_at_most_once (isDevMode : bool) (name : string)
    (calls : list (nat * option string)) :
  let st := warn_all isDevMode name calls (mkWarningState false ∅ []) in
  NoDup (List.map fst (warned st))
  /\ List.length
       (List.filter (fun call => once_per_class (snd call)) (warned st))
     <= 1
  /\ (isDevMode = false -> warned st = []).
Proof.
  intros st. subst st.
  assert (forall st0, warning_invariant st0 ->
            warning_invariant (warn_all isDevMode name calls st0)) as Hinv.
  { induction calls as [| call rest IH]; intros st0 H0; [exact H0 |].
    simpl. apply IH, warn_keeps_invariant, H0. }
  assert (warning_invariant (mkWarningState false ∅ [])) as Hinit.
  { unfold warning_invariant. simpl. repeat split.
    - intros call Hin. apply elem_of_nil in Hin. contradiction.
    - intros H. contradiction.
    - constructor.
    - lia. }
  destruct (Hinv _ Hinit) as (_ & _ & Hnodup & Hcount).
  split; [exact Hnodup |]. split; [exact Hcount |].
  intros ->. clear.
  assert (forall st0, warned st0 = [] ->
            warned (warn_all false name calls st0) = []) as Hquiet.
  { induction calls as [| [i cfg] rest IH]; intros st0 H0; [exact H0 |].
    simpl. apply IH. unfold warn, _ngModelWarning. simpl.
    rewrite H0. reflexivity. }
  apply Hquiet. reflexivity.
Qed.

(** ** Detecting an updated model input *)

Lemma Object_is_refl (same_reference : JsValue -> JsValue -> bool)
    (v : JsValue) :
  primitive_value v -> Object_is same_reference v v = true.
Proof.
  destruct v as [| | b | n | s | items | props]; simpl; intros Hp;
    try contradiction; try reflexivity.
  - destruct b; reflexivity.
  - apply Leibniz.eqb_spec. reflexivity.
  - apply String.eqb_refl.
Qed.

(** X12. [isPropertyUpdated] never reports an update when the changes
    have no [model] entry.  When they have one whose current value is the
    primitive value the view model already holds ([NaN] included), an
    update is reported exactly when it is the first change; two different
    strings are always an update. *)
Theorem isPropertyUpdated_same_value
    (same_reference : JsValue -> JsValue -> bool)
    (changes : gmap string SimpleChange) (change : SimpleChange)
    (viewModel : JsValue) :
  primitive_value viewModel ->
  currentValue change = viewModel ->
  isPropertyUpdated same_reference (<["model" := change]> changes) viewModel
  = firstChange change
  /\ isPropertyUpdated same_reference (delete "model" changes) viewModel
     = false
  /\ (forall s t,
        s <> t ->
        isPropertyUpdated same_reference
          (<["model" := mkSimpleChange (firstChange change) (VStr t)]>
             changes) (VStr s) = true).
Proof.
  intros Hp Hcur. unfold isPropertyUpdated.
  rewrite lookup_insert_eq, lookup_delete_eq, Hcur.
  rewrite (Object_is_refl same_reference viewModel Hp).
  split; [destruct (firstChange change); reflexivity |].
  split; [reflexivity |].
  intros s t Hne. rewrite lookup_insert_eq. simpl.
  destruct (firstChange change); [reflexivity |].
  apply String_eqb_false_iff in Hne. rewrite Hne. reflexivity.
Qed.

Lemma isPropertyUpdated_same_value_witness :
  isPropertyUpdated (fun _ _ => false)
    (<["model" := mkSimpleChange false (VNum PrimFloat.nan)]> ∅)
    (VNum PrimFloat.nan)
  = false.
Proof.
  apply (proj1 (isPropertyUpdated_same_value (fun _ _ => false) ∅
                  (mkSimpleChange false (VNum PrimFloat.nan))
                  (VNum PrimFloat.nan) I eq_refl)).
Defined.

(** ** Detaching a control *)

(** X13. Once [setUpControl] has bound a control, the function last
    registered on the accessor for the changes of the view is the
    view-change handler, and the one registered for blur the blur
    handler.  After [cleanUpControl] the functions last registered both
    throw the error that no control is attached, whatever was registered
    before, and the control has been told to clear its change functions;
    [cleanUpControl] itself throws when the directive has no value
    accessor. *)
Theorem cleanUpControl_detaches
    (same_reference : JsValue -> JsValue -> bool)
    (control : BindFormControl) (dir : NgBindControl)
    (accessor : ControlBindValueAccessor) :
  valueAccessor dir = Some accessor ->
  (exists control1 dir1 accessor1,
     setUpControl (Some control) dir = Ok (control1, dir1)
     /\ valueAccessor dir1 = Some accessor1
     /\ (forall v c d,
           call_registered_onChange same_reference accessor1 v c d
           = viewChangeHandler same_reference v c d)
     /\ (forall c d,
           call_registered_onTouched same_reference accessor1 c d
           = Ok (blurHandler c d)))
  /\ (exists dir2 accessor2 log,
        cleanUpControl (Some control) dir = Ok (dir2, log)
        /\ valueAccessor dir2 = Some accessor2
        /\ In _clearChangeFns log
        /\ (forall v c d,
              call_registered_onChange same_reference accessor2 v c d
              = _noControlError d)
        /\ (forall c d,
              call_registered_onTouched same_reference accessor2 c d
              = _noControlError d))
  /\ (forall c d,
        valueAccessor d = None ->
        cleanUpControl c d = Throw "TypeError").
Proof.
  intros Hacc. split; [| split].
  - unfold setUpControl, setUpViewChangePipeline, setUpBlurPipeline,
      setUpModelChangePipeline, on_valueAccessor.
    rewrite Hacc. simpl.
    do 3 eexists. split; [reflexivity |].
    assert (forall (l1 : list BindValidator) (l2 : list AsyncBindValidator)
                   n m d,
              valueAccessor
                (register_async_validator_changes m l2
                   (register_validator_changes n l1 d))
              = valueAccessor d) as Hkeep.
    { assert (forall (l1 : list BindValidator) n d,
                valueAccessor (register_validator_changes n l1 d)
                = valueAccessor d) as H1.
      { induction l1 as [| [f | f []] rest IH]; intros n d; simpl;
          rewrite ?IH; reflexivity. }
      assert (forall (l2 : list AsyncBindValidator) m d,
                valueAccessor (register_async_validator_changes m l2 d)
                = valueAccessor d) as H2.
      { induction l2 as [| [f | f []] rest IH]; intros m d; simpl;
          rewrite ?IH; reflexivity. }
      intros. rewrite H2, H1. reflexivity. }
    rewrite Hkeep. simpl. split; [reflexivity |].
    destruct (registered_after_both
                (accessor_call (writeValue (value (base control))) accessor)
                viewChangePipeline blurPipeline) as [H1 H2].
    unfold call_registered_onChange, call_registered_onTouched. rewrite H1, H2.
    split; reflexivity.
  - unfold cleanUpControl, on_valueAccessor. rewrite Hacc. simpl.
    do 3 eexists. split; [reflexivity |]. split; [reflexivity |].
    split.
    + apply in_or_app. right. apply in_or_app. right. left. reflexivity.
    + destruct (registered_after_both accessor noControlError
                  noControlError) as [H1 H2].
      unfold call_registered_onChange, call_registered_onTouched. rewrite H1, H2.
      split; reflexivity.
  - intros c d Hnone. unfold cleanUpControl, on_valueAccessor.
    rewrite Hnone. reflexivity.
Qed.

Lemma cleanUpControl_detaches_witness :
  exists dir2 accessor2 log,
    cleanUpControl
      (Some (mkBindFormControl (mkControl (VStr "") false false false)
               None None None on_change VUndefined false false false []))
      (mkDir ["city"] "city"
         (Some (mkAccessor DefaultBindValueAccessor false
                  [acc_registerOnChange viewChangePipeline]))
         [] [] [])
    = Ok (dir2, log)
    /\ valueAccessor dir2 = Some accessor2
    /\ call_registered_onChange (fun _ _ => false) accessor2 (VStr "a")
         (mkBindFormControl (mkControl (VStr "") false false false)
            None None None on_change VUndefined false false false [])
         dir2
       = Throw
           "There is no BindFormControl instance attached to form control element with name: 'city'"%string.
Proof.
  destruct (proj1 (proj2
              (cleanUpControl_detaches (fun _ _ => false)
                 (mkBindFormControl (mkControl (VStr "") false false false)
                    None None None on_change VUndefined false false false [])
                 (mkDir ["city"%string] "city"
                    (Some (mkAccessor DefaultBindValueAccessor false
                             [acc_registerOnChange viewChangePipeline]))
                    [] [] [])
                 (mkAccessor DefaultBindValueAccessor false
                    [acc_registerOnChange viewChangePipeline])
                 eq_refl)))
    as (dir2 & accessor2 & log & Hok & Hacc & _ & Hchange & _).
  exists dir2, accessor2, log. split; [exact Hok |].
  split; [exact Hacc |]. rewrite Hchange.
  injection Hok as <- _. reflexivity.
Defined.

(** ** Binding a container *)

Lemma composeValidators_raws (vs : option (list BindValidator)) :
  composeValidators vs
  = BindValidators.compose
      (Some (List.map (fun v : BindValidatorFn => Some v)
               (List.map normalizeValidator (default [] vs)))).
Proof.
  destruct vs as [l |]; simpl; [| reflexivity].
  rewrite List.map_map. reflexivity.
Qed.

(** X14. [setUpFormContainer] throws for an absent group or array.
    Otherwise the container's new validator runs the container's own
    validator, if any, and then the directive's validators, each
    normalized, and merges their error maps; it is [null] exactly when
    there is none of them, in particular when the directive was given no
    validators at all. *)
Theorem setUpFormContainer_composes
    (control : BindFormContainer) (dir : ContainerDirective) :
  (exists message, setUpFormContainer None dir = Throw message)
  /\ exists control',
       setUpFormContainer (Some control) dir = Ok control'
       /\ (forall c,
             run_validator (container_validator control') c
             = (let '(c', errs) :=
                  _executeValidators c (validators_of_container control dir)
                in (c', _mergeErrors errs)))
       /\ (container_validator control' = None
           <-> validators_of_container control dir = []).
Proof.
  split.
  - unfold setUpFormContainer, _throwError.
    destruct (Nat.ltb 1 _); eexists; reflexivity.
  - eexists. split; [reflexivity |]. cbn [container_validator].
    rewrite composeValidators_raws. unfold validators_of_container.
    pose proof (compose_with_composed (container_validator control)
                  (List.map normalizeValidator
                     (default [] (_validators dir)))) as H.
    cbv zeta in H.
    destruct (present [container_validator control]
              ++ List.map normalizeValidator (default [] (_validators dir)))
      as [| v rest] eqn:Hall.
    + rewrite H. split; [intros c; reflexivity |]. split; reflexivity.
    + destruct H as (f & -> & Hf). split.
      * intros c. simpl run_validator. apply Hf.
      * split; discriminate.
Qed.

(** ** The loop of [syncPendingControls] *)

(** X15. When every listed directive has its control in the form, the
    loop of [syncPendingControls] returns; the form keeps its controls and
    their [updateOn], no pending change is raised, and afterwards no
    listed directive's control has [updateOn] ['submit'] with a change
    pending, so that running the loop again changes nothing and calls no
    [viewToModelUpdate]. *)
Theorem sync_directives_clears_pending
    (form : gmap string BindFormControl)
    (directives : list NgBindControl) :
  (forall dir, In dir directives -> is_Some (form !! control_name dir)) ->
  exists form' directives',
    sync_directives form directives = Ok (form', directives')
    /\ pending_cleared form form'
    /\ Forall (fun dir =>
                 exists c, form' !! control_name dir = Some c
                           /\ awaits_submit c = false) directives
    /\ sync_directives form' directives' = Ok (form', directives').
Proof.
  intros Hdirs.
  destruct (sync_directives_run directives form Hdirs)
    as (form' & directives' & Hrun & Hcl & Hnames & Hall).
  exists form', directives'. split; [exact Hrun |].
  split; [exact Hcl |].
  pose proof Hall as Hall'. rewrite Forall_map in Hall.
  split; [exact Hall |].
  apply sync_directives_settled.
  rewrite <- Hnames, Forall_map in Hall'. exact Hall'.
Qed.

Lemma sync_directives_clears_pending_witness :
  exists form' directives',
    sync_directives
      (<["city" :=
           mkBindFormControl (mkControl (VStr "") false false false)
             None None None on_submit (VStr "Ulm") true true false []]> ∅)
      [mkDir ["city"] "city" None [] [] []]
    = Ok (form', directives')
    /\ pending_cleared
         (<["city" :=
              mkBindFormControl (mkControl (VStr "") false false false)
                None None None on_submit (VStr "Ulm") true true false []]> ∅)
         form'
    /\ Forall (fun dir =>
                 exists c, form' !! control_name dir = Some c
                           /\ awaits_submit c = false)
         [mkDir ["city"] "city" None [] [] []]
    /\ sync_directives form' directives' = Ok (form', directives').
Proof.
  apply (sync_directives_clears_pending
           (<["city"%string :=
                mkBindFormControl (mkControl (VStr "") false false false)
                  None None None on_submit (VStr "Ulm") true true false []]>
              ∅)
           [mkDir ["city"%string] "city" None [] [] []]).
  intros dir [<- | []]. cbn [control_name]. rewrite lookup_insert_eq.
  eexists. reflexivity.
Defined.

(** ** Typing, then leaving the field *)

Lemma buffered_twice (v w : JsValue) (control : BindFormControl) :
  buffered w (buffered v control) = buffered w control.
Proof.
  destruct control. reflexivity.
Qed.

Lemma view_changes_buffer (same_reference : JsValue -> JsValue -> bool)
    (values : list JsValue) (dir : NgBindControl) :
  forall control : BindFormControl,
    transformer control = None ->
    updateOn control <> on_change ->
    view_changes same_reference values control dir
    = Ok (match last values with
          | Some v => buffered v control
          | None => control
          end, dir).
Proof.
  induction values as [| v rest IH]; intros control Ht Hu; [reflexivity |].
  assert (viewChangeHandler same_reference v control dir
          = Ok (buffered v control, dir)) as Hstep.
  { unfold viewChangeHandler. rewrite Ht. simpl.
    destruct (updateOn control); [contradiction | reflexivity | reflexivity]. }
  simpl view_changes. rewrite Hstep. simpl Result_bind.
  rewrite IH; [| exact Ht | exact Hu].
  destruct rest as [| w rest']; [reflexivity |].
  change (last (v :: w :: rest')) with (last (w :: rest')).
  destruct (last (w :: rest')) as [x |] eqn:Hlast.
  - rewrite buffered_twice. reflexivity.
  - apply last_None in Hlast. discriminate.
Qed.

Lemma blurHandler_pending (b : AbstractBindControl)
    (va : option BindValidatorFn) (av : option AsyncBindValidatorFn)
    (pv : JsValue) (pt : bool) (cs : list ControlCall)
    (dir : NgBindControl) :
  blurHandler
    (mkBindFormControl b va av None on_blur pv true true pt cs) dir
  = (mkBindFormControl b va av None on_blur pv false true true
       (cs ++ [markAsDirty; setValue pv false; markAsTouched]),
     directive_call (viewToModelUpdate pv) dir).
Proof.
  unfold blurHandler, updateControl, call. simpl.
  rewrite <- !app_assoc. reflexivity.
Qed.

Lemma blurHandler_idle (b : AbstractBindControl)
    (va : option BindValidatorFn) (av : option AsyncBindValidatorFn)
    (tr : option BindTransformerFn)
    (pv : JsValue) (pd pt : bool) (cs : list ControlCall)
    (dir : NgBindControl) :
  blurHandler
    (mkBindFormControl b va av tr on_blur pv false pd pt cs) dir
  = (mkBindFormControl b va av tr on_blur pv false pd true
       (cs ++ [markAsTouched]),
     dir).
Proof.
  reflexivity.
Qed.

(** X16. With [updateOn] ['blur'] and no transformer, typing only
    buffers: a run of view changes calls nothing on the control.  The
    blur that follows marks the control dirty, sets the last value typed,
    once, without emitting a model-to-view change, reports it with
    [viewToModelUpdate] and marks the control touched.  A second blur with
    nothing typed in between only marks it touched again. *)
Theorem blur_flushes_last_value
    (same_reference : JsValue -> JsValue -> bool)
    (values : list JsValue) (v : JsValue)
    (control : BindFormControl) (dir : NgBindControl) :
  transformer control = None ->
  updateOn control = on_blur ->
  exists control1,
    view_changes same_reference (values ++ [v]) control dir
    = Ok (control1, dir)
    /\ calls control1 = calls control
    /\ exists control2 dir2,
         blurHandler control1 dir = (control2, dir2)
         /\ calls control2
            = calls control
              ++ [markAsDirty; setValue v false; markAsTouched]
         /\ directive_calls dir2
            = directive_calls dir ++ [viewToModelUpdate v]
         /\ exists control3,
              blurHandler control2 dir2 = (control3, dir2)
              /\ calls control3 = calls control2 ++ [markAsTouched].
Proof.
  intros Ht Hu.
  rewrite view_changes_buffer; [| exact Ht | rewrite Hu; discriminate].
  rewrite last_snoc.
  destruct control as [b va av tr uo pv pc pd pt cs].
  simpl in Ht, Hu. subst tr uo.
  exists (mkBindFormControl b va av None on_blur v true true pt cs).
  split; [reflexivity |]. split; [reflexivity |].
  rewrite blurHandler_pending.
  exists (mkBindFormControl b va av None on_blur v false true true
            (cs ++ [markAsDirty; setValue v false; markAsTouched])),
    (directive_call (viewToModelUpdate v) dir).
  split; [reflexivity |]. split; [reflexivity |].
  split; [reflexivity |].
  rewrite blurHandler_idle.
  eexists. split; reflexivity.
Qed.

Lemma blur_flushes_last_value_witness :
  exists control1,
    view_changes (fun _ _ => false) ([VStr "U"; VStr "Ul"] ++ [VStr "Ulm"])
      (mkBindFormControl (mkControl (VStr "") false false false)
         None None None on_blur VUndefined false false false [])
      (mkDir ["city"] "city" None [] [] [])
    = Ok (control1, mkDir ["city"] "city" None [] [] [])
    /\ calls control1 = []
    /\ exists control2 dir2,
         blurHandler control1 (mkDir ["city"] "city" None [] [] [])
         = (control2, dir2)
         /\ calls control2
            = [] ++ [markAsDirty; setValue (VStr "Ulm") false; markAsTouched]
         /\ directive_calls dir2 = [] ++ [viewToModelUpdate (VStr "Ulm")]
         /\ exists control3,
              blurHandler control2 dir2 = (control3, dir2)
              /\ calls control3 = calls control2 ++ [markAsTouched].
Proof.
  exact (blur_flushes_last_value (fun _ _ => false)
           [VStr "U"; VStr "Ul"] (VStr "Ulm")
           (mkBindFormControl (mkControl (VStr "") false false false)
              None None None on_blur VUndefined false false false [])
           (mkDir ["city"%string] "city" None [] [] [])
           eq_refl eq_refl).
Defined.
